(** * Endee RAG Assistant: a shallow embedding of the front end and of the
      answering pipeline it talks to

    The first half embeds the TypeScript sources: the HTTP client
    ([services/api.ts]), the three React components ([document-upload.tsx],
    [question-answer.tsx], [sources-panel.tsx]) and [App.tsx].  React state is
    a record per component, a [setX] call is a record update, an [async]
    handler is cut at its single [await] into the part that runs before the
    request leaves and the part that runs when the promise settles.

    The second half models the retrieval pipeline (chunker, vector store,
    retriever, orchestrator) whose Python sources are not part of the tree;
    those definitions follow the design document and say so. *)

From Stdlib Require Import ZArith QArith Qcanon Lia Ascii String.
From stdpp Require Import base strings list gmap sorting pretty numbers.

(** ** JavaScript values that cross the wire *)

(** A parsed JSON document.  [JNum n] is the number literal of the integer
    [n] (literals with a fraction are not represented); an object keeps its
    members in insertion order, one member per key as [JSON.parse] leaves
    them, and a property read finds the member with that key (the first
    one, in a list that repeats a key). *)
#[local] Unset Elimination Schemes.
Inductive json : Type :=
| JNull
| JBool (b : bool)
| JNum (n : Z)
| JStr (s : string)
| JArr (items : list json)
| JObj (fields : list (string * json)).
#[local] Set Elimination Schemes.

Module Js.

(** [v?.prop] on a possibly undefined value ([None] is [undefined]).  Only
    objects carry members; [null], primitives and arrays answer
    [undefined] for a name such as ["error"]. *)
Fixpoint member (prop : string) (fields : list (string * json)) : option json :=
  match fields with
  | [] => None
  | (k, v) :: rest => if String.eqb k prop then Some v else member prop rest
  end.

Definition get (prop : string) (v : option json) : option json :=
  match v with
  | Some (JObj fields) => member prop fields
  | _ => None
  end.

(** ToBoolean. *)
Definition truthy (v : json) : bool :=
  match v with
  | JNull => false
  | JBool b => b
  | JNum n => negb (n =? 0)%Z
  | JStr s => negb (String.eqb s "")
  | JArr _ => true
  | JObj _ => true
  end.

(** The Number value of the positive integer literal [n]: the nearest
    double, ties to the even significand; [None] is Infinity. *)
Definition nearestDouble (n : Z) : option Z :=
  let bits := (Z.log2 n + 1)%Z in
  if (bits <=? 53)%Z then Some n
  else
    let shift := (bits - 53)%Z in
    let q := Z.shiftr n shift in
    let r := (n - Z.shiftl q shift)%Z in
    let half := Z.shiftl 1 (shift - 1) in
    let q := if (half <? r)%Z || ((r =? half)%Z && Z.odd q) then (q + 1)%Z else q in
    let d := Z.shiftl q shift in
    if (2 ^ 1024 <=? d)%Z then None else Some d.

(** Number::toString picks the decimal with the fewest significant digits
    whose Number value is [d], the closest to [d] when there are two.  The
    search goes from the coarsest power of ten [10 ^ p] down; at [p = 0]
    the candidate is [d] itself. *)
Fixpoint shortest (p : nat) (d : Z) : Z :=
  let unit := (10 ^ Z.of_nat p)%Z in
  let below := (d / unit * unit)%Z in
  let above := (below + unit)%Z in
  let okBelow := (0 <? below)%Z && bool_decide (nearestDouble below = Some d) in
  let okAbove := bool_decide (nearestDouble above = Some d) in
  if okBelow && okAbove then
    if (d - below <? above - d)%Z then below
    else if (above - d <? d - below)%Z then above
    else if Z.even (below / unit) then below else above
  else if okBelow then below
  else if okAbove then above
  else match p with
       | 0 => d
       | S p => shortest p d
       end.

Fixpoint stripZeros (fuel : nat) (c : Z) : Z :=
  match fuel with
  | 0 => c
  | S fuel => if (c mod 10 =? 0)%Z then stripZeros fuel (c / 10) else c
  end.

(** The form with an exponent, used from [10 ^ 21] on: ["1e+21"],
    ["1.5e+22"]. *)
Definition exponential (c : Z) : string :=
  let all := pretty c in
  match pretty (stripZeros (String.length all) c) with
  | String first rest =>
      String first (match rest with EmptyString => "" | _ => "." +:+ rest end)
      +:+ "e+" +:+ pretty (String.length all - 1)
  | EmptyString => ""
  end.

Definition positiveToString (n : Z) : string :=
  match nearestDouble n with
  | None => "Infinity"
  | Some d =>
      let c := shortest (Z.to_nat (Z.log2 d)) d in
      if (c <? 10 ^ 21)%Z then pretty c else exponential c
  end.

(** Number::toString of the Number value of the literal [n]. *)
Definition numberToString (n : Z) : string :=
  match n with
  | Z0 => "0"
  | Zpos _ => positiveToString n
  | Zneg _ => "-" +:+ positiveToString (- n)
  end.

(** ToString; [None] when the conversion throws a TypeError.  An array is
    joined as [Array.prototype.join] does.  An object answers
    ["[object Object]"] through [Object.prototype.toString], unless it has
    a member of its own called [toString]: a parsed member is never
    callable, and the inherited [valueOf] returns the object itself, so the
    conversion to a primitive fails. *)
Fixpoint ToString (v : json) : option string :=
  match v with
  | JNull => Some "null"
  | JBool true => Some "true"
  | JBool false => Some "false"
  | JNum n => Some (numberToString n)
  | JStr s => Some s
  | JArr items =>
      (fix join (l : list json) : option string :=
         match l with
         | [] => Some ""
         | x :: rest =>
             match (match x with JNull => Some "" | _ => ToString x end) with
             | None => None
             | Some piece =>
                 match rest with
                 | [] => Some piece
                 | _ :: _ =>
                     match join rest with
                     | None => None
                     | Some tail => Some (piece +:+ "," +:+ tail)
                     end
                 end
             end
         end) items
  | JObj fields =>
      match member "toString" fields with
      | Some _ => None
      | None => Some "[object Object]"
      end
  end.

(** The keys that count as array indices: canonical decimal strings below
    [2 ^ 32 - 1]. *)
Fixpoint digitsValue (s : string) (acc : N) : option N :=
  match s with
  | EmptyString => Some acc
  | String c rest =>
      let n := N_of_ascii c in
      if ((48 <=? n) && (n <=? 57))%N
      then digitsValue rest (acc * 10 + (n - 48))%N
      else None
  end.

Definition arrayIndex (key : string) : option N :=
  match digitsValue key 0 with
  | Some n =>
      if String.eqb (pretty n) key && (n <? 4294967295)%N then Some n else None
  | None => None
  end.

Definition indexOrder (a b : N * (string * json)) : Prop := (fst a <= fst b)%N.

#[global] Instance indexOrder_dec : RelDecision indexOrder.
Proof. intros a b. unfold indexOrder. apply _. Defined.

(** [Object.entries]: the members whose keys are array indices come first,
    in ascending order of the index, then the others in the order of the
    text. *)
Definition entries (fields : list (string * json)) : list (string * json) :=
  (snd <$> merge_sort indexOrder
             (omap (fun kv => (fun n => (n, kv)) <$> arrayIndex (fst kv)) fields))
  ++ filter (fun kv => arrayIndex (fst kv) = None) fields.

(** [a || b] where [a] may be [undefined]. *)
Definition or (a : option json) (b : json) : json :=
  match a with
  | Some v => if truthy v then v else b
  | None => b
  end.

(** What a [catch] clause can receive: an [Error] instance with its
    [message], or some other thrown value. *)
Inductive Thrown : Type :=
| IsError (message : string)
| NotError.

(** The message of the TypeError that a failed conversion to a primitive
    raises.  The language leaves the text to the engine; this is the one of
    V8 (Node, Chrome). *)
Definition cannotConvert : string := "Cannot convert object to primitive value".

(** [throw new Error(v)]: the message of the new error is [ToString v];
    when that conversion throws, its TypeError is what gets thrown
    instead.  Either way an [Error] instance is thrown. *)
Definition Error (v : json) : Thrown :=
  match ToString v with
  | Some message => IsError message
  | None => IsError cannotConvert
  end.

(** A settled promise of an [async] function. *)
Inductive Promise (T : Type) : Type :=
| Resolves (value : T)
| Rejects (reason : Thrown).
Global Arguments Resolves {T} value.
Global Arguments Rejects {T} reason.

(** Code units that [String.prototype.trim] strips, among those below 256:
    TAB, LF, VT, FF, CR, SPACE and NBSP.  A character of a model string is
    one code unit. *)
Definition isWhiteSpace (c : ascii) : bool :=
  let n := N_of_ascii c in
  ((9 <=? n) && (n <=? 13) || (n =? 32) || (n =? 160))%N.

Fixpoint trimStart (s : string) : string :=
  match s with
  | EmptyString => EmptyString
  | String c rest => if isWhiteSpace c then trimStart rest else s
  end.

Fixpoint trimEnd (s : string) : string :=
  match s with
  | EmptyString => EmptyString
  | String c rest =>
      match trimEnd rest with
      | EmptyString => if isWhiteSpace c then EmptyString else String c EmptyString
      | kept => String c kept
      end
  end.

Definition trim (s : string) : string := trimEnd (trimStart s).

(** Every code unit of [s] is white space (so is the empty string). *)
Fixpoint whitespaceOnly (s : string) : bool :=
  match s with
  | EmptyString => true
  | String c rest => isWhiteSpace c && whitespaceOnly rest
  end.

End Js.

(** ** The browser's [File] and the requests axios sends *)

Record File : Type := { name : string; type : string; content : string }.

Inductive RequestBody : Type :=
| JsonBody (data : json)
| FormData (entries : list (string * File)).

Record Request : Type := {
  method : string;
  url : string;
  contentType : string;
  body : RequestBody
}.

(** How [api.post] ends: the promise is fulfilled with [response.data], or it
    is rejected with an axios error (whose [response], when there is one,
    carries the parsed body), or with something that is not an axios error. *)
Inductive PostResult (T : Type) : Type :=
| Fulfilled (data : T)
| RejectedAxios (response : option json)
| RejectedOther.
Arguments Fulfilled {T} data.
Arguments RejectedAxios {T} response.
Arguments RejectedOther {T}.

(** DOM effects and network calls a handler performs, in order. *)
Inductive Effect : Type :=
| PreventDefault
| FocusInput
| HttpPost (r : Request).

(** ** services/api.ts *)

Module Api.

Record Source : Type := {
  text : string;
  metadata : option (list (string * json))
}.

(** The interface declares [sources] as required; [handleSubmit] still
    tests [response.sources] before using it, so the member is kept
    optional here ([None]: the body had no [sources]). *)
Record AskResponse : Type := {
  answer : string;
  sources : option (list Source)
}.

Record UploadResponse : Type := {
  message : string;
  filename : string
}.

Definition uploadRequest (file : File) : Request :=
  {| method := "POST"; url := "/upload";
     contentType := "multipart/form-data";
     body := FormData [("file", file)] |}.

Definition askRequest (question : string) : Request :=
  {| method := "POST"; url := "/ask";
     contentType := "application/json";
     body := JsonBody (JObj [("question", JStr question)]) |}.

(** [error.response?.data?.error]: [response] is the body of the axios
    error's response when there is one. *)
Definition errorField (response : option json) : option json :=
  Js.get "error" response.

(** Each call returns the requests it issued and how its promise settles. *)
Definition uploadDocument (post : Request -> PostResult UploadResponse)
    (file : File) : list Request * Js.Promise UploadResponse :=
  let request := uploadRequest file in
  ([request],
   match post request with
   | Fulfilled data => Js.Resolves data
   | RejectedAxios response =>
       Js.Rejects (Js.Error (Js.or (errorField response)
                                   (JStr "Failed to upload document")))
   | RejectedOther =>
       Js.Rejects (Js.Error (JStr "An unexpected error occurred during upload"))
   end).

Definition askQuestion (post : Request -> PostResult AskResponse)
    (question : string) : list Request * Js.Promise AskResponse :=
  let request := askRequest question in
  ([request],
   match post request with
   | Fulfilled data => Js.Resolves data
   | RejectedAxios response =>
       Js.Rejects (Js.Error (Js.or (errorField response)
                                   (JStr "Failed to get answer")))
   | RejectedOther =>
       Js.Rejects (Js.Error (JStr "An unexpected error occurred while asking question"))
   end).

End Api.

(** ** app/components/document-upload.tsx *)

Module DocumentUpload.

Inductive UploadStatus : Type := idle | success | error.

(** The [useState] cells of the component, and the value of the hidden
    file input behind [fileInputRef] ([None] while the ref is not
    attached). *)
Record State : Type := {
  selectedFile : option File;
  uploading : bool;
  uploadStatus : UploadStatus;
  errorMessage : string;
  successMessage : string;
  isDragging : bool;
  fileInput : option string
}.

Definition initial : State :=
  {| selectedFile := None; uploading := false; uploadStatus := idle;
     errorMessage := ""; successMessage := ""; isDragging := false;
     fileInput := Some "" |}.

Definition setSelectedFile (v : option File) (st : State) : State :=
  {| selectedFile := v; uploading := uploading st;
     uploadStatus := uploadStatus st; errorMessage := errorMessage st;
     successMessage := successMessage st; isDragging := isDragging st;
     fileInput := fileInput st |}.

Definition setUploading (v : bool) (st : State) : State :=
  {| selectedFile := selectedFile st; uploading := v;
     uploadStatus := uploadStatus st; errorMessage := errorMessage st;
     successMessage := successMessage st; isDragging := isDragging st;
     fileInput := fileInput st |}.

Definition setUploadStatus (v : UploadStatus) (st : State) : State :=
  {| selectedFile := selectedFile st; uploading := uploading st;
     uploadStatus := v; errorMessage := errorMessage st;
     successMessage := successMessage st; isDragging := isDragging st;
     fileInput := fileInput st |}.

Definition setErrorMessage (v : string) (st : State) : State :=
  {| selectedFile := selectedFile st; uploading := uploading st;
     uploadStatus := uploadStatus st; errorMessage := v;
     successMessage := successMessage st; isDragging := isDragging st;
     fileInput := fileInput st |}.

Definition setSuccessMessage (v : string) (st : State) : State :=
  {| selectedFile := selectedFile st; uploading := uploading st;
     uploadStatus := uploadStatus st; errorMessage := errorMessage st;
     successMessage := v; isDragging := isDragging st;
     fileInput := fileInput st |}.

Definition setIsDragging (v : bool) (st : State) : State :=
  {| selectedFile := selectedFile st; uploading := uploading st;
     uploadStatus := uploadStatus st; errorMessage := errorMessage st;
     successMessage := successMessage st; isDragging := v;
     fileInput := fileInput st |}.

(** [if (fileInputRef.current) fileInputRef.current.value = ''] *)
Definition resetFileInput (st : State) : State :=
  {| selectedFile := selectedFile st; uploading := uploading st;
     uploadStatus := uploadStatus st; errorMessage := errorMessage st;
     successMessage := successMessage st; isDragging := isDragging st;
     fileInput := match fileInput st with
                  | Some _ => Some ""
                  | None => None
                  end |}.

Definition validTypes : list string := ["application/pdf"; "text/plain"].

(** [validTypes.includes(file.type)] *)
Definition includes (l : list string) (s : string) : bool :=
  existsb (String.eqb s) l.

Definition handleFileSelect (file : File) (st : State) : State :=
  if negb (includes validTypes (type file)) then
    setUploadStatus error
      (setErrorMessage "Please upload a PDF or TXT file" st)
  else
    setErrorMessage ""
      (setUploadStatus idle
         (setSelectedFile (Some file) st)).

(** [files] is the event's [FileList]; an absent or empty list has no
    first element. *)
Definition handleFileChange (files : list File) (st : State) : State :=
  match files with
  | file :: _ => handleFileSelect file st
  | [] => st
  end.

Definition handleDragOver (st : State) : State * list Effect :=
  (setIsDragging true st, [PreventDefault]).

Definition handleDragLeave (st : State) : State * list Effect :=
  (setIsDragging false st, [PreventDefault]).

Definition handleDrop (files : list File) (st : State) : State * list Effect :=
  let st := setIsDragging false st in
  (match files with
   | file :: _ => handleFileSelect file st
   | [] => st
   end, [PreventDefault]).

(** The Remove button: [onClick={() => setSelectedFile(null)}]. *)
Definition removeClicked (st : State) : State := setSelectedFile None st.

(** [handleUpload] up to its [await]: the new state and the file handed to
    [uploadDocument], if the handler got that far. *)
Definition handleUpload_start (st : State) : State * option File :=
  match selectedFile st with
  | None => (st, None)
  | Some file =>
      (setErrorMessage "" (setUploadStatus idle (setUploading true st)),
       Some file)
  end.

(** [x || fallback] on strings. *)
Definition orString (x fallback : string) : string :=
  if String.eqb x "" then fallback else x.

(** [handleUpload] from the moment the promise settles: the [try] body
    after the [await], or the [catch] clause, and then [finally].  [P] is
    the parent's state, which the optional callback updates. *)
Definition handleUpload_finish {P : Type}
    (onUploadSuccess : option (string -> P -> P))
    (outcome : Js.Promise Api.UploadResponse)
    (stp : State * P) : State * P :=
  let '(st, parent) := stp in
  let '(st, parent) :=
    match outcome with
    | Js.Resolves response =>
        let st := setSuccessMessage
                    (orString (Api.message response)
                              "Document uploaded successfully") st in
        let st := setUploadStatus success st in
        let st := setSelectedFile None st in
        let st := resetFileInput st in
        (st, match onUploadSuccess with
             | Some callback => callback (Api.filename response) parent
             | None => parent
             end)
    | Js.Rejects reason =>
        let st := setErrorMessage
                    (match reason with
                     | Js.IsError message => message
                     | Js.NotError => "Upload failed"
                     end) st in
        (setUploadStatus error st, parent)
    end in
  (setUploading false st, parent).

(** The whole handler against a transport that answers at once. *)
Definition handleUpload {P : Type}
    (post : Request -> PostResult Api.UploadResponse)
    (onUploadSuccess : option (string -> P -> P))
    (stp : State * P) : (State * P) * list Effect :=
  let '(st, parent) := stp in
  match handleUpload_start st with
  | (st, None) => ((st, parent), [])
  | (st, Some file) =>
      let '(requests, outcome) := Api.uploadDocument post file in
      (handleUpload_finish onUploadSuccess outcome (st, parent),
       map HttpPost requests)
  end.

(** What can happen to the component. *)
Inductive Event : Type :=
| FileChanged (files : list File)
| DragOver
| DragLeave
| Dropped (files : list File)
| RemoveClicked
| UploadClicked
| UploadSettled (outcome : Js.Promise Api.UploadResponse).

(** One event: the next state of the component and of its parent, and the
    upload calls that left. *)
Definition step {P : Type} (onUploadSuccess : option (string -> P -> P))
    (ev : Event) (stp : State * P) : (State * P) * list File :=
  let '(st, parent) := stp in
  match ev with
  | FileChanged files => ((handleFileChange files st, parent), [])
  | DragOver => ((fst (handleDragOver st), parent), [])
  | DragLeave => ((fst (handleDragLeave st), parent), [])
  | Dropped files => ((fst (handleDrop files st), parent), [])
  | RemoveClicked => ((removeClicked st, parent), [])
  | UploadClicked =>
      let '(st, sent) := handleUpload_start st in
      ((st, parent), match sent with Some file => [file] | None => [] end)
  | UploadSettled outcome =>
      (handleUpload_finish onUploadSuccess outcome (st, parent), [])
  end.

Fixpoint run {P : Type} (onUploadSuccess : option (string -> P -> P))
    (evs : list Event) (stp : State * P) : (State * P) * list File :=
  match evs with
  | [] => (stp, [])
  | ev :: rest =>
      let '(stp, sent) := step onUploadSuccess ev stp in
      let '(stp, sent') := run onUploadSuccess rest stp in
      (stp, sent ++ sent')
  end.

End DocumentUpload.

(** ** app/components/question-answer.tsx

    The [useEffect] that scrolls to the last message touches no state and
    is left out. *)

Module QuestionAnswer.

Inductive MessageType : Type := user | assistant.

(** [timestamp] is the instant [new Date()] read, in milliseconds. *)
Record Message : Type := {
  id : string;
  type : MessageType;
  content : string;
  sources : option (list Api.Source);
  timestamp : Z
}.

Record State : Type := {
  messages : list Message;
  inputValue : string;
  isLoading : bool
}.

Definition initial : State :=
  {| messages := []; inputValue := ""; isLoading := false |}.

(** [setMessages((prev) => ...)] *)
Definition setMessages (f : list Message -> list Message) (st : State) : State :=
  {| messages := f (messages st); inputValue := inputValue st;
     isLoading := isLoading st |}.

Definition setInputValue (v : string) (st : State) : State :=
  {| messages := messages st; inputValue := v; isLoading := isLoading st |}.

Definition setIsLoading (v : bool) (st : State) : State :=
  {| messages := messages st; inputValue := inputValue st; isLoading := v |}.

(** [handleSubmit] up to its [await].  [now] is what [Date.now()] returns
    and [date] what [new Date()] reads.  The third component is the
    question handed to [askQuestion], if the handler got that far. *)
Definition handleSubmit_start (now date : Z) (st : State)
    : State * list Effect * option string :=
  if String.eqb (Js.trim (inputValue st)) "" || isLoading st then
    (st, [PreventDefault], None)
  else
    let question := inputValue st in
    let userMessage :=
      {| id := pretty now; type := user; content := question;
         sources := None; timestamp := date |} in
    let st := setMessages (fun prev => prev ++ [userMessage]) st in
    let st := setInputValue "" st in
    let st := setIsLoading true st in
    (st, [PreventDefault], Some question).

(** [handleSubmit] from the moment the promise settles: the rest of the
    [try] body or the [catch] clause, and then [finally]. *)
Definition handleSubmit_finish {P : Type}
    (onSourcesUpdate : option (list Api.Source -> P -> P))
    (now date : Z) (outcome : Js.Promise Api.AskResponse)
    (stp : State * P) : (State * P) * list Effect :=
  let '(st, parent) := stp in
  let '(st, parent) :=
    match outcome with
    | Js.Resolves response =>
        let assistantMessage :=
          {| id := pretty (now + 1)%Z; type := assistant;
             content := Api.answer response;
             sources := Api.sources response; timestamp := date |} in
        let st := setMessages (fun prev => prev ++ [assistantMessage]) st in
        (st, match onSourcesUpdate, Api.sources response with
             | Some callback, Some sources => callback sources parent
             | _, _ => parent
             end)
    | Js.Rejects reason =>
        let errorMessage :=
          {| id := pretty (now + 1)%Z; type := assistant;
             content := match reason with
                        | Js.IsError message => message
                        | Js.NotError => "Failed to get answer. Please try again."
                        end;
             sources := None; timestamp := date |} in
        (setMessages (fun prev => prev ++ [errorMessage]) st, parent)
    end in
  ((setIsLoading false st, parent), [FocusInput]).

(** The whole handler against a transport that answers at once; [now'] and
    [date'] are the clock readings after the [await]. *)
Definition handleSubmit {P : Type}
    (post : Request -> PostResult Api.AskResponse)
    (onSourcesUpdate : option (list Api.Source -> P -> P))
    (now date now' date' : Z)
    (stp : State * P) : (State * P) * list Effect :=
  let '(st, parent) := stp in
  match handleSubmit_start now date st with
  | (st, effects, None) => ((st, parent), effects)
  | (st, effects, Some question) =>
      let '(requests, outcome) := Api.askQuestion post question in
      let '(stp, effects') :=
        handleSubmit_finish onSourcesUpdate now' date' outcome (st, parent) in
      (stp, effects ++ map HttpPost requests ++ effects')
  end.

Inductive Event : Type :=
| InputChanged (value : string)
| Submitted (now date : Z)
| AskSettled (now date : Z) (outcome : Js.Promise Api.AskResponse).

Definition isSettled (ev : Event) : bool :=
  match ev with
  | AskSettled _ _ _ => true
  | _ => false
  end.

(** One event: the next state of the component and of its parent, and the
    questions that left for [askQuestion]. *)
Definition step {P : Type}
    (onSourcesUpdate : option (list Api.Source -> P -> P))
    (ev : Event) (stp : State * P) : (State * P) * list string :=
  let '(st, parent) := stp in
  match ev with
  | InputChanged value => ((setInputValue value st, parent), [])
  | Submitted now date =>
      let '(st, _, asked) := handleSubmit_start now date st in
      ((st, parent), match asked with Some q => [q] | None => [] end)
  | AskSettled now date outcome =>
      (fst (handleSubmit_finish onSourcesUpdate now date outcome (st, parent)), [])
  end.

Fixpoint run {P : Type}
    (onSourcesUpdate : option (list Api.Source -> P -> P))
    (evs : list Event) (stp : State * P) : (State * P) * list string :=
  match evs with
  | [] => (stp, [])
  | ev :: rest =>
      let '(stp, asked) := step onSourcesUpdate ev stp in
      let '(stp, asked') := run onSourcesUpdate rest stp in
      (stp, asked ++ asked')
  end.

End QuestionAnswer.

(** ** app/components/sources-panel.tsx *)

Module SourcesPanel.

(** What a [SourceItem] renders: its caption and, once expanded, the text
    and the metadata rows (absent when there is no metadata or it has no
    keys).  [RenderThrows]: a metadata value could not be converted by
    [String(value)], and the render threw. *)
Inductive SourceItemView : Type :=
| Item (caption : string)
       (expanded : option (string * option (list (string * string))))
| RenderThrows.

(** One row per entry, the value shown as [String(value)]; [None] when one
    of the conversions throws. *)
Fixpoint metadataRows (entries : list (string * json))
    : option (list (string * string)) :=
  match entries with
  | [] => Some []
  | (key, value) :: rest =>
      match Js.ToString value, metadataRows rest with
      | Some shown, Some rows => Some ((key, shown) :: rows)
      | _, _ => None
      end
  end.

(** [isExpanded] is the item's own [useState] cell. *)
Definition SourceItem (source : Api.Source) (index : nat) (isExpanded : bool)
    : SourceItemView :=
  let caption := "Source " +:+ pretty (index + 1) in
  if isExpanded then
    match Api.metadata source with
    | Some members =>
        if 0 <? length members then
          match metadataRows (Js.entries members) with
          | Some rows => Item caption (Some (Api.text source, Some rows))
          | None => RenderThrows
          end
        else Item caption (Some (Api.text source, None))
    | None => Item caption (Some (Api.text source, None))
    end
  else Item caption None.

(** The body of the panel: the placeholder, or one [SourceItem] per source,
    keyed by its index. *)
Inductive Body : Type :=
| Placeholder (text : string)
| Items (items : list SourceItemView).

Record View : Type := {
  heading : string;
  summary : string;
  body : Body
}.

(** The panel as it is first mounted: every item starts with
    [isExpanded = false]. *)
Definition SourcesPanel (sources : list Api.Source) : View :=
  {| heading := "Retrieved Sources";
     summary :=
       if 0 <? length sources then
         pretty (length sources) +:+ " relevant document " +:+
         (if length sources =? 1 then "chunk" else "chunks") +:+ " found"
       else "No sources available";
     body :=
       if length sources =? 0 then
         Placeholder "Ask a question to see relevant sources"
       else
         Items (imap (fun index source => SourceItem source index false) sources) |}.

(** The panel while it stays mounted.  React keeps the state of an item as
    long as an item with its key, the index, is rendered: [isExpanded]
    holds that state position by position.  An item that is
    [RenderThrows] stands for a render that threw: there is no error
    boundary, so React then takes the whole page down. *)
Definition mounted (isExpanded : list bool) (sources : list Api.Source) : View :=
  {| heading := "Retrieved Sources";
     summary :=
       if 0 <? length sources then
         pretty (length sources) +:+ " relevant document " +:+
         (if length sources =? 1 then "chunk" else "chunks") +:+ " found"
       else "No sources available";
     body :=
       if length sources =? 0 then
         Placeholder "Ask a question to see relevant sources"
       else
         Items (imap (fun index source =>
                        SourceItem source index (default false (isExpanded !! index)))
                     sources) |}.

(** The items' states when the panel is mounted, after a click on the
    header of item [index] ([setIsExpanded(!isExpanded)]), and after the
    panel is rendered again with other sources: the items whose index is
    still there keep their state, new ones start collapsed. *)
Definition mount (sources : list Api.Source) : list bool :=
  replicate (length sources) false.



End SourcesPanel.

(** ** app/App.tsx *)

Module App.

Record State : Type := {
  currentSources : list Api.Source;
  uploadedFiles : list string
}.

Definition initial : State := {| currentSources := []; uploadedFiles := [] |}.

Definition handleUploadSuccess (filename : string) (st : State) : State :=
  {| currentSources := currentSources st;
     uploadedFiles := uploadedFiles st ++ [filename] |}.

Definition handleSourcesUpdate (sources : list Api.Source) (st : State) : State :=
  {| currentSources := sources; uploadedFiles := uploadedFiles st |}.

(** The parts of the page that depend on [App]'s own state: the counter in
    the header and the sources section. *)
Record View : Type := {
  counter : option string;
  sourcesSection : option SourcesPanel.View
}.

Definition render (st : State) : View :=
  {| counter :=
       if 0 <? length (uploadedFiles st) then
         Some (pretty (length (uploadedFiles st)) +:+ " document" +:+
               (if negb (length (uploadedFiles st) =? 1) then "s" else "") +:+
               " uploaded")
       else None;
     sourcesSection :=
       if 0 <? length (currentSources st) then
         Some (SourcesPanel.SourcesPanel (currentSources st))
       else None |}.

(** [render] shows the sources panel as it is first mounted.  Once the
    items of the panel have states of their own, [isExpanded] being what
    React holds for them, the page is: *)
Definition rendered (isExpanded : list bool) (st : State) : View :=
  {| counter := counter (render st);
     sourcesSection :=
       if 0 <? length (currentSources st) then
         Some (SourcesPanel.mounted isExpanded (currentSources st))
       else None |}.

(** The page: [App] with its two stateful children, wired as in the JSX
    ([onUploadSuccess={handleUploadSuccess}],
    [onSourcesUpdate={handleSourcesUpdate}]). *)
Record Page : Type := {
  app : State;
  documentUpload : DocumentUpload.State;
  questionAnswer : QuestionAnswer.State
}.

Definition start : Page :=
  {| app := initial; documentUpload := DocumentUpload.initial;
     questionAnswer := QuestionAnswer.initial |}.

Inductive Event : Type :=
| InUpload (ev : DocumentUpload.Event)
| InQuestion (ev : QuestionAnswer.Event).

Definition step (ev : Event) (page : Page) : Page :=
  match ev with
  | InUpload ev =>
      let '(st, parent) :=
        fst (DocumentUpload.step (Some handleUploadSuccess) ev
               (documentUpload page, app page)) in
      {| app := parent; documentUpload := st;
         questionAnswer := questionAnswer page |}
  | InQuestion ev =>
      let '(st, parent) :=
        fst (QuestionAnswer.step (Some handleSourcesUpdate) ev
               (questionAnswer page, app page)) in
      {| app := parent; documentUpload := documentUpload page;
         questionAnswer := st |}
  end.

Definition run (evs : list Event) (page : Page) : Page :=
  fold_left (fun page ev => step ev page) evs page.

End App.

(** ** What the two stateful components render

    The JSX of [DocumentUpload] and [QuestionAnswer], reduced to the parts
    that depend on state: which controls are there, whether they are
    disabled, and the texts they show. *)

Module DocumentUploadView.

(** [uploadButton] is the button's [disabled] attribute and its caption;
    [selectedFileInfo] is the file name beside the Remove button. *)
Record View : Type := {
  highlighted : bool;
  inputDisabled : bool;
  dropZoneText : string;
  selectedFileInfo : option string;
  uploadButton : option (bool * string);
  successBanner : option string;
  errorBanner : option string
}.

Definition render (st : DocumentUpload.State) : View :=
  {| highlighted := DocumentUpload.isDragging st;
     inputDisabled := DocumentUpload.uploading st;
     dropZoneText :=
       match DocumentUpload.selectedFile st with
       | Some file => name file
       | None => "Drag and drop your file here"
       end;
     selectedFileInfo :=
       match DocumentUpload.selectedFile st, DocumentUpload.uploadStatus st with
       | Some file, DocumentUpload.idle => Some (name file)
       | _, _ => None
       end;
     uploadButton :=
       match DocumentUpload.selectedFile st, DocumentUpload.uploadStatus st with
       | Some _, DocumentUpload.idle =>
           Some (DocumentUpload.uploading st,
                 if DocumentUpload.uploading st then "Uploading..."
                 else "Upload Document")
       | _, _ => None
       end;
     successBanner :=
       match DocumentUpload.uploadStatus st with
       | DocumentUpload.success => Some (DocumentUpload.successMessage st)
       | _ => None
       end;
     errorBanner :=
       match DocumentUpload.uploadStatus st with
       | DocumentUpload.error => Some (DocumentUpload.errorMessage st)
       | _ => None
       end |}.

(** Whether the page lets [ev] happen in state [st] with [pending] uploads
    in flight: a click on Upload needs the button rendered and not
    disabled, a settlement needs a request to settle.  The other events are
    not restricted. *)
Definition offered (st : DocumentUpload.State) (pending : nat)
    (ev : DocumentUpload.Event) : bool :=
  match ev with
  | DocumentUpload.UploadClicked =>
      match uploadButton (render st) with
      | Some (false, _) => true
      | _ => false
      end
  | DocumentUpload.UploadSettled _ => 0 <? pending
  | _ => true
  end.

(** A run through the rendered controls, counting the uploads in flight;
    [None] when some event was not on offer. *)
Fixpoint play {P : Type} (onUploadSuccess : option (string -> P -> P))
    (evs : list DocumentUpload.Event) (stp : DocumentUpload.State * P)
    (pending : nat) : option ((DocumentUpload.State * P) * nat) :=
  match evs with
  | [] => Some (stp, pending)
  | ev :: rest =>
      if offered (fst stp) pending ev then
        let '(stp', sent) := DocumentUpload.step onUploadSuccess ev stp in
        play onUploadSuccess rest stp'
             match ev with
             | DocumentUpload.UploadSettled _ => pending - 1
             | _ => pending + length sent
             end
      else None
  end.

End DocumentUploadView.

Module QuestionAnswerView.

(** One message bubble: its React key, the side it is on, its text, and
    the "Sources: n" line when the message has a non-empty source list. *)
Record Bubble : Type := {
  key : string;
  side : QuestionAnswer.MessageType;
  text : string;
  badge : option string
}.

Inductive Body : Type :=
| Welcome (title : string)
| Bubbles (bubbles : list Bubble).

Record View : Type := {
  body : Body;
  spinner : bool;
  inputText : string;
  inputDisabled : bool;
  submitDisabled : bool
}.

Definition bubble (m : QuestionAnswer.Message) : Bubble :=
  {| key := QuestionAnswer.id m;
     side := QuestionAnswer.type m;
     text := QuestionAnswer.content m;
     badge :=
       match QuestionAnswer.sources m with
       | Some sources =>
           if 0 <? length sources
           then Some ("Sources: " +:+ pretty (length sources))
           else None
       | None => None
       end |}.

Definition render (st : QuestionAnswer.State) : View :=
  {| body :=
       if length (QuestionAnswer.messages st) =? 0 then
         Welcome "Start a conversation"
       else Bubbles (bubble <$> QuestionAnswer.messages st);
     spinner := QuestionAnswer.isLoading st;
     inputText := QuestionAnswer.inputValue st;
     inputDisabled := QuestionAnswer.isLoading st;
     submitDisabled :=
       String.eqb (Js.trim (QuestionAnswer.inputValue st)) ""
       || QuestionAnswer.isLoading st |}.

(** A settlement needs a request to settle; typing and submitting are not
    restricted (the handler has its own guard). *)
Definition offered (pending : nat) (ev : QuestionAnswer.Event) : bool :=
  match ev with
  | QuestionAnswer.AskSettled _ _ _ => 0 <? pending
  | _ => true
  end.

(** A run, counting the questions in flight; [None] when a settlement came
    with nothing in flight. *)
Fixpoint play {P : Type} (onSourcesUpdate : option (list Api.Source -> P -> P))
    (evs : list QuestionAnswer.Event) (stp : QuestionAnswer.State * P)
    (pending : nat) : option ((QuestionAnswer.State * P) * nat) :=
  match evs with
  | [] => Some (stp, pending)
  | ev :: rest =>
      if offered pending ev then
        let '(stp', asked) := QuestionAnswer.step onSourcesUpdate ev stp in
        play onSourcesUpdate rest stp'
             match ev with
             | QuestionAnswer.AskSettled _ _ _ => pending - 1
             | _ => pending + length asked
             end
      else None
  end.

End QuestionAnswerView.

(** ** The retrieval pipeline

    The Python modules behind [POST /upload] and [POST /ask] are not in the
    tree.  The modules below model them from the design document, section by
    section; the collaborators the document treats as opaque (embedding
    model, similarity metric, generative model) are arguments. *)

Inductive Result (E A : Type) : Type :=
| Ok (value : A)
| Err (error : E).
Arguments Ok {E A} value.
Arguments Err {E A} error.

Module Chunker.

Inductive Error : Type := InvalidConfiguration.

(** Modelled from the spec: the Chunk of section 3 ([chunker.py] is
    missing).  A chunk covers the offsets [start <= i < stop] of the
    document. *)
Record Chunk : Type := {
  index : nat;
  start : nat;
  stop : nat;
  text : string
}.

Definition is_space (c : ascii) : bool :=
  let n := N_of_ascii c in
  ((9 <=? n) && (n <=? 13) || (n =? 32))%N.

(** White space, or the end of a sentence. *)
Definition is_boundary (c : ascii) : bool :=
  is_space c || Ascii.eqb c "." || Ascii.eqb c "!" || Ascii.eqb c "?".

Fixpoint blank (s : string) : bool :=
  match s with
  | EmptyString => true
  | String c rest => is_space c && blank rest
  end.

(** Breaking at offset [pos] does not split a word when the character just
    before [pos] is a boundary. *)
Definition boundary_before (text : string) (pos : nat) : bool :=
  match pos with
  | 0 => false
  | S before =>
      match String.get before text with
      | Some c => is_boundary c
      | None => false
      end
  end.

(** Modelled from the spec: the boundary search of section 4.1.  The
    nearest offset at or before [pos], at most [lookback] back, where a break
    is on a boundary. *)
Fixpoint nearest_boundary (text : string) (lookback pos : nat) : option nat :=
  if boundary_before text pos then Some pos
  else
    match lookback, pos with
    | S lookback, S pos => nearest_boundary text lookback pos
    | _, _ => None
    end.

Definition snap (text : string) (lookback pos : nat) : nat :=
  match nearest_boundary text lookback pos with
  | Some boundary => boundary
  | None => pos
  end.

Definition make (text : string) (index start stop : nat) : Chunk :=
  {| index := index; start := start; stop := stop;
     text := substring start (stop - start) text |}.

(** Modelled from the spec: the sliding window of section 4.1.  A window
    that reaches the end of the text is the last one, so no empty fragment
    trails it.  Any other window breaks at the nearest boundary at or
    before its full size, when there is one within the look-back, and at
    its full size otherwise; the next window starts [overlap] before the
    break.  A break is never taken so far back that the next window would
    start where this one did: the walk has to advance. *)
Fixpoint windows (fuel : nat) (text : string) (size overlap lookback : nat)
    (index start : nat) : list Chunk :=
  match fuel with
  | 0 => []
  | S fuel =>
      if String.length text <=? start + size then
        [make text index start (String.length text)]
      else
        let stop :=
          snap text (Nat.min lookback (size - overlap - 1)) (start + size) in
        make text index start stop
        :: windows fuel text size overlap lookback (S index) (stop - overlap)
  end.

(** Modelled from the spec: the chunker of section 4.1 ([chunker.py] is
    missing).  [lookback] is the size of the boundary-snapping window,
    which the document leaves open.  Every window but the last advances the
    start by at least one character, so the length of the text is fuel
    enough. *)
Definition chunk (lookback : nat) (text : string) (chunk_size overlap : Z)
    : Result Error (list Chunk) :=
  if ((0 <? chunk_size) && (0 <=? overlap) && (overlap <? chunk_size))%Z then
    if blank text then Ok []
    else Ok (windows (String.length text) text
                     (Z.to_nat chunk_size) (Z.to_nat overlap) lookback 0 0)
  else Err InvalidConfiguration.

(** [ceil (a / b)] for [0 < b]. *)
Definition ceil_div (a b : Z) : Z := ((a + b - 1) / b)%Z.

(** How far the ranges of two consecutive chunks run into each other. *)
Definition overlap_of (c d : Chunk) : Z := (Z.of_nat (stop c) - Z.of_nat (start d))%Z.

End Chunker.

Module VectorStore.

Definition Vector : Type := list Qc.

Record VectorRecord : Type := {
  id : string;
  vector : Vector;
  text : string;
  metadata : gmap string string
}.

(** What the index keeps under an id. *)
Record Stored : Type := {
  stored_vector : Vector;
  stored_text : string;
  stored_metadata : gmap string string
}.

Inductive Error : Type := InvalidArgument.

Definition upsert_one (store : gmap string Stored) (r : VectorRecord)
    : gmap string Stored :=
  <[id r := {| stored_vector := vector r; stored_text := text r;
               stored_metadata := metadata r |}]> store.

(** Modelled from the spec: [upsert] of section 4.3 ([endee_client.py] is
    missing); the remote index is a finite map from ids to what was last
    written under them.  Returns the new index and the count written. *)
Definition upsert (records : list VectorRecord) (store : gmap string Stored)
    : gmap string Stored * nat :=
  (foldl upsert_one store records, length records).

Definition records (store : gmap string Stored) : list VectorRecord :=
  (fun kv => {| id := fst kv; vector := stored_vector (snd kv);
                text := stored_text (snd kv);
                metadata := stored_metadata (snd kv) |})
    <$> map_to_list store.

(** Modelled from the spec: the metric of section 4.3.  Dot product; on
    L2-normalized vectors this is the cosine similarity.  Scores are exact
    rationals. *)
Fixpoint dot (a b : Vector) : Qc :=
  match a, b with
  | x :: a, y :: b => (x * y + dot a b)%Qc
  | _, _ => 0%Qc
  end.

Record Scored : Type := { record : VectorRecord; score : Qc }.

(** Modelled from the spec: the result order of section 4.3.  [ranks a b]:
    [a] may stand before [b], by descending score and, at equal scores,
    ascending id. *)
Definition ranks (a b : Scored) : Prop :=
  (score b < score a)%Qc
  \/ (score a = score b /\ String.le (id (record a)) (id (record b))).

#[global] Instance scored_ranks_dec : RelDecision ranks.
Proof. intros a b. unfold ranks. apply _. Defined.

(** Modelled from the spec: [query] of section 4.3 ([endee_client.py] is
    missing), with the similarity metric as an argument. *)
Definition query (similarity : Vector -> Vector -> Qc)
    (store : gmap string Stored) (vector_ : Vector) (top_k : Z)
    (filter_ : option (gmap string string -> bool))
    : Result Error (list Scored) :=
  if (top_k <=? 0)%Z then Err InvalidArgument
  else
    let passes r :=
      match filter_ with
      | Some predicate => predicate (metadata r)
      | None => true
      end in
    let candidates := List.filter passes (records store) in
    Ok (take (Z.to_nat top_k)
          (merge_sort ranks
             ((fun r => {| record := r; score := similarity vector_ (vector r) |})
                <$> candidates))).

End VectorStore.

Module Retriever.

Record Source : Type := {
  id : string;
  text : string;
  metadata : gmap string string;
  score : Qc
}.

Definition expose (s : VectorStore.Scored) : Source :=
  {| id := VectorStore.id (VectorStore.record s);
     text := VectorStore.text (VectorStore.record s);
     metadata := VectorStore.metadata (VectorStore.record s);
     score := VectorStore.score s |}.

(** Descending score, then ascending id. *)
Definition ranks (a b : Source) : Prop :=
  (score b < score a)%Qc \/ (score a = score b /\ String.le (id a) (id b)).

#[global] Instance source_ranks_dec : RelDecision ranks.
Proof. intros a b. unfold ranks. apply _. Defined.

(** Modelled from the spec: the defensive removal of duplicate ids of
    section 4.4; keeps the first result of every id. *)
Fixpoint dedup (seen : gset string) (l : list Source) : list Source :=
  match l with
  | [] => []
  | s :: rest =>
      if decide (id s ∈ seen) then dedup seen rest
      else s :: dedup ({[id s]} ∪ seen) rest
  end.

Definition meets (score_threshold : option Qc) (s : Source) : Prop :=
  match score_threshold with
  | Some threshold => (threshold <= score s)%Qc
  | None => True
  end.

#[global] Instance meets_dec t s : Decision (meets t s).
Proof. destruct t; simpl; apply _. Defined.

(** Modelled from the spec: [search] of section 4.4 ([retriever.py] is
    missing). *)
Definition search (similarity : VectorStore.Vector -> VectorStore.Vector -> Qc)
    (store : gmap string VectorStore.Stored)
    (query_vector : VectorStore.Vector) (top_k : Z)
    (score_threshold : option Qc)
    : Result VectorStore.Error (list Source) :=
  match VectorStore.query similarity store query_vector top_k None with
  | Err e => Err e
  | Ok results =>
      Ok (dedup ∅ (filter (meets score_threshold) (expose <$> results)))
  end.

End Retriever.

Module Orchestrator.

Record Query : Type := {
  question : string;
  top_k : option Z;
  score_threshold : option Qc
}.

Record Answer : Type := {
  text : string;
  sources : list Retriever.Source
}.

Inductive Error : Type :=
| EncodingError
| RetrievalError (e : VectorStore.Error)
| GenerationError.

Record Prompt : Type := {
  instruction : string;
  context : list string;
  asked : string
}.

Definition grounding_instruction : string :=
  "Answer only from the supplied context.".

Definition default_top_k : Z := 4.

(** Modelled from the spec: the context assembly of section 4.5.  The
    ranked sources that fit the character budget, best first; the first one
    that does not fit and everything ranked below it are dropped. *)
Fixpoint within_budget (budget : nat) (ranked : list Retriever.Source)
    : list Retriever.Source :=
  match ranked with
  | [] => []
  | s :: rest =>
      if String.length (Retriever.text s) <=? budget then
        s :: within_budget (budget - String.length (Retriever.text s)) rest
      else []
  end.

(** Modelled from the spec: [answer] of section 4.5 ([rag.py] is missing).
    [encode] and [generate] are the embedding and the generative model;
    [None] is their failure. *)
Definition answer
    (encode : string -> option VectorStore.Vector)
    (generate : Prompt -> option string)
    (similarity : VectorStore.Vector -> VectorStore.Vector -> Qc)
    (budget : nat)
    (store : gmap string VectorStore.Stored)
    (query : Query) : Result Error Answer :=
  match encode (question query) with
  | None => Err EncodingError
  | Some query_vector =>
      match Retriever.search similarity store query_vector
              (default default_top_k (top_k query)) (score_threshold query) with
      | Err e => Err (RetrievalError e)
      | Ok ranked =>
          let included := within_budget budget ranked in
          let prompt :=
            {| instruction := grounding_instruction;
               context := Retriever.text <$> included;
               asked := question query |} in
          match generate prompt with
          | None => Err GenerationError
          | Some generated => Ok {| text := generated; sources := included |}
          end
      end
  end.

End Orchestrator.

(** * Properties of the front end *)

(** ** [trim] *)

Lemma trimStart_blank (s : string) :
  Js.whitespaceOnly s = true -> Js.trimStart s = "".
Proof.
  induction s as [|c s IH]; simpl; [reflexivity|].
  intros [Hc Hs]%andb_prop. rewrite Hc. auto.
Qed.

Lemma trimEnd_empty (s : string) :
  Js.trimEnd s = "" -> Js.whitespaceOnly s = true.
Proof.
  induction s as [|c s IH]; simpl; [reflexivity|].
  destruct (Js.trimEnd s) eqn:E; [|discriminate].
  destruct (Js.isWhiteSpace c); [|discriminate].
  intros _. simpl. auto.
Qed.

Lemma trimStart_keeps_blank (s : string) :
  Js.whitespaceOnly (Js.trimStart s) = true -> Js.whitespaceOnly s = true.
Proof.
  induction s as [|c s IH]; simpl; [reflexivity|].
  destruct (Js.isWhiteSpace c) eqn:E; simpl; [auto|].
  rewrite E. discriminate.
Qed.

(** [!s.trim()] holds exactly for the strings made of white space only. *)
Lemma trim_empty_iff (s : string) :
  Js.trim s = "" <-> Js.whitespaceOnly s = true.
Proof.
  unfold Js.trim. split.
  - intros H. apply trimStart_keeps_blank, trimEnd_empty, H.
  - intros H. rewrite (trimStart_blank s H). reflexivity.
Qed.

Lemma guard_refuses (st : QuestionAnswer.State) :
  Js.whitespaceOnly (QuestionAnswer.inputValue st) = true
  \/ QuestionAnswer.isLoading st = true ->
  String.eqb (Js.trim (QuestionAnswer.inputValue st)) "" || QuestionAnswer.isLoading st
  = true.
Proof.
  intros [H | H].
  - apply trim_empty_iff in H. rewrite H. reflexivity.
  - rewrite H. apply orb_true_r.
Qed.

Lemma guard_accepts (st : QuestionAnswer.State) :
  Js.whitespaceOnly (QuestionAnswer.inputValue st) = false ->
  QuestionAnswer.isLoading st = false ->
  String.eqb (Js.trim (QuestionAnswer.inputValue st)) "" || QuestionAnswer.isLoading st
  = false.
Proof.
  intros Hw Hl. rewrite Hl, orb_false_r.
  apply String.eqb_neq. intros H%trim_empty_iff. congruence.
Qed.

(** ** services/api.ts *)

(** C1: for every question, [askQuestion] issues one request, a JSON [POST]
    to [/ask] whose body is the object with the single member [question];
    when the call succeeds the promise resolves with the response body
    itself, so its [answer] and [sources] arrive as the server sent them. *)
Theorem askQuestion_request_and_response :
  forall (post : Request -> PostResult Api.AskResponse) (question : string),
    fst (Api.askQuestion post question)
    = [ {| method := "POST"; url := "/ask";
           contentType := "application/json";
           body := JsonBody (JObj [("question", JStr question)]) |} ]
    /\ forall data : Api.AskResponse,
         post (Api.askRequest question) = Fulfilled data ->
         snd (Api.askQuestion post question) = Js.Resolves data
         /\ forall value,
              snd (Api.askQuestion post question) = Js.Resolves value ->
              Api.answer value = Api.answer data
              /\ Api.sources value = Api.sources data.
Proof.
  intros post question. split; [reflexivity|].
  intros data Hpost. unfold Api.askQuestion. simpl. rewrite Hpost.
  split; [reflexivity|].
  intros value [= ->]. split; reflexivity.
Qed.

Lemma askQuestion_request_and_response_witness :
  let data :=
    {| Api.answer := "Endee is a vector database.";
       Api.sources :=
         Some [ {| Api.text := "Endee stores vectors.";
                   Api.metadata := Some [("page", JNum 1)] |} ] |} in
  snd (Api.askQuestion (fun _ => Fulfilled data) "What is Endee?")
  = Js.Resolves data.
Proof.
  intros data.
  exact (proj1 (proj2 (askQuestion_request_and_response
                         (fun _ => Fulfilled data) "What is Endee?")
                      data eq_refl)).
Defined.




(** ** document-upload.tsx *)

Lemma includes_In (l : list string) (s : string) :
  DocumentUpload.includes l s = true <-> In s l.
Proof.
  unfold DocumentUpload.includes. rewrite existsb_exists. split.
  - intros (x & Hx & ->%String.eqb_eq). exact Hx.
  - intros H. exists s. split; [exact H | apply String.eqb_refl].
Qed.

Lemma handleFileSelect_selected (file : File) (st : DocumentUpload.State) :
  DocumentUpload.selectedFile (DocumentUpload.handleFileSelect file st)
  = if DocumentUpload.includes DocumentUpload.validTypes (type file)
    then Some file else DocumentUpload.selectedFile st.
Proof.
  unfold DocumentUpload.handleFileSelect.
  destruct (DocumentUpload.includes _ _); reflexivity.
Qed.

(** Whatever happens to the component, the selected file, when there is
    one, has an accepted type, and so has every file handed to
    [uploadDocument]. *)
Lemma step_selected_accepted {P : Type} (cb : option (string -> P -> P))
    (ev : DocumentUpload.Event) (stp : DocumentUpload.State * P) :
  (forall f, DocumentUpload.selectedFile (fst stp) = Some f ->
             In (type f) DocumentUpload.validTypes) ->
  (forall f, DocumentUpload.selectedFile (fst (fst (DocumentUpload.step cb ev stp))) = Some f ->
             In (type f) DocumentUpload.validTypes)
  /\ (forall f, In f (snd (DocumentUpload.step cb ev stp)) ->
                In (type f) DocumentUpload.validTypes).
Proof.
  destruct stp as [st parent]. simpl. intros Hinv.
  assert (Hsel : forall file st0,
             (forall f, DocumentUpload.selectedFile st0 = Some f ->
                        In (type f) DocumentUpload.validTypes) ->
             forall f, DocumentUpload.selectedFile
                         (DocumentUpload.handleFileSelect file st0) = Some f ->
                       In (type f) DocumentUpload.validTypes).
  { intros file st0 H0 f. rewrite handleFileSelect_selected.
    destruct (DocumentUpload.includes _ _) eqn:E; [|apply H0].
    intros [= <-]. apply includes_In, E. }
  destruct ev as [files| | |files| | |outcome]; simpl.
  - split; [|intros f []]. destruct files as [|file files]; simpl; [exact Hinv|].
    apply Hsel, Hinv.
  - split; [exact Hinv | intros f []].
  - split; [exact Hinv | intros f []].
  - split; [|intros f []]. destruct files as [|file files]; simpl; [exact Hinv|].
    apply Hsel. exact Hinv.
  - split; [discriminate | intros f []].
  - unfold DocumentUpload.handleUpload_start.
    destruct (DocumentUpload.selectedFile st) as [file|] eqn:E; simpl.
    + split; [|intros f [<- | []]; apply Hinv; reflexivity].
      intros f Hf. apply Hinv. simpl in Hf. congruence.
    + split; [rewrite E; discriminate | intros f []].
  - split; [|intros f []].
    destruct outcome as [response|reason]; simpl; [discriminate | exact Hinv].
Qed.

Lemma run_sends_accepted {P : Type} (cb : option (string -> P -> P))
    (evs : list DocumentUpload.Event) :
  forall stp : DocumentUpload.State * P,
    (forall f, DocumentUpload.selectedFile (fst stp) = Some f ->
               In (type f) DocumentUpload.validTypes) ->
    forall f, In f (snd (DocumentUpload.run cb evs stp)) ->
              In (type f) DocumentUpload.validTypes.
Proof.
  induction evs as [|ev evs IH]; intros stp Hinv f; simpl; [intros []|].
  destruct (step_selected_accepted cb ev stp Hinv) as [Hnext Hsent].
  destruct (DocumentUpload.step cb ev stp) as [stp1 sent] eqn:E1. simpl in *.
  specialize (IH stp1 Hnext f).
  destruct (DocumentUpload.run cb evs stp1) as [stp2 sent']. simpl in *.
  rewrite in_app_iff. intros [H | H]; auto.
Qed.

(** C3: a file whose MIME type is neither [application/pdf] nor
    [text/plain] makes [handleFileSelect] record the validation error with
    status [error] and change nothing else, the selected file included; in
    no run of the component from its initial state is such a file handed to
    [uploadDocument].  A file of an accepted type becomes the selected file,
    the error message is cleared and the status is [idle]. *)
Theorem handleFileSelect_validates_type :
  forall (file : File) (st : DocumentUpload.State),
    (type file <> "application/pdf" -> type file <> "text/plain" ->
     DocumentUpload.handleFileSelect file st
     = {| DocumentUpload.selectedFile := DocumentUpload.selectedFile st;
          DocumentUpload.uploading := DocumentUpload.uploading st;
          DocumentUpload.uploadStatus := DocumentUpload.error;
          DocumentUpload.errorMessage := "Please upload a PDF or TXT file";
          DocumentUpload.successMessage := DocumentUpload.successMessage st;
          DocumentUpload.isDragging := DocumentUpload.isDragging st;
          DocumentUpload.fileInput := DocumentUpload.fileInput st |}
     /\ forall (P : Type) (cb : option (string -> P -> P))
               (evs : list DocumentUpload.Event) (parent : P),
          ~ In file (snd (DocumentUpload.run cb evs (DocumentUpload.initial, parent))))
    /\ (type file = "application/pdf" \/ type file = "text/plain" ->
        DocumentUpload.handleFileSelect file st
        = {| DocumentUpload.selectedFile := Some file;
             DocumentUpload.uploading := DocumentUpload.uploading st;
             DocumentUpload.uploadStatus := DocumentUpload.idle;
             DocumentUpload.errorMessage := "";
             DocumentUpload.successMessage := DocumentUpload.successMessage st;
             DocumentUpload.isDragging := DocumentUpload.isDragging st;
             DocumentUpload.fileInput := DocumentUpload.fileInput st |}).
Proof.
  intros file st. split.
  - intros Hpdf Htxt.
    assert (Hno : ~ In (type file) DocumentUpload.validTypes).
    { simpl. intros [H | [H | []]]; congruence. }
    split.
    + unfold DocumentUpload.handleFileSelect.
      destruct (DocumentUpload.includes _ _) eqn:E;
        [apply includes_In in E; contradiction | reflexivity].
    + intros P cb evs parent Hin. apply Hno.
      apply (run_sends_accepted cb evs (DocumentUpload.initial, parent));
        [discriminate | exact Hin].
  - intros Hok.
    assert (E : DocumentUpload.includes DocumentUpload.validTypes (type file) = true).
    { apply includes_In. simpl. destruct Hok as [-> | ->]; auto. }
    unfold DocumentUpload.handleFileSelect. rewrite E. reflexivity.
Qed.

Lemma handleFileSelect_validates_type_witness :
  let png := {| name := "scan.png"; type := "image/png"; content := "" |} in
  let pdf := {| name := "notes.pdf"; type := "application/pdf"; content := "" |} in
  DocumentUpload.uploadStatus
    (DocumentUpload.handleFileSelect png DocumentUpload.initial)
  = DocumentUpload.error
  /\ ~ In png
       (snd (DocumentUpload.run (P := unit) None
               [DocumentUpload.Dropped [png]; DocumentUpload.UploadClicked]
               (DocumentUpload.initial, tt)))
  /\ DocumentUpload.selectedFile
       (DocumentUpload.handleFileSelect pdf DocumentUpload.initial)
     = Some pdf.
Proof.
  intros png pdf.
  assert (Hpdf : type png <> "application/pdf") by discriminate.
  assert (Htxt : type png <> "text/plain") by discriminate.
  destruct (proj1 (handleFileSelect_validates_type png DocumentUpload.initial)
                  Hpdf Htxt) as [Hstate Hnever].
  split; [rewrite Hstate; reflexivity|].
  split; [apply Hnever|].
  rewrite (proj2 (handleFileSelect_validates_type pdf DocumentUpload.initial)
                 (or_introl eq_refl)).
  reflexivity.
Defined.

(** C4: the selected file goes to [POST /upload] as multipart form data
    under the key [file], and a successful call resolves with the response
    body ([message], [filename]).  [handleUpload] then clears the selected
    file, empties the file input when it is mounted, records the success
    message (the server's, or the default when that is empty) with status
    [success], ends the uploading state and calls [onUploadSuccess], when
    given, with the returned [filename]. *)
Theorem upload_success_flow :
  forall (P : Type) (post : Request -> PostResult Api.UploadResponse)
         (onUploadSuccess : option (string -> P -> P))
         (file : File) (st : DocumentUpload.State) (parent : P)
         (response : Api.UploadResponse),
    DocumentUpload.selectedFile st = Some file ->
    post (Api.uploadRequest file) = Fulfilled response ->
    Api.uploadDocument post file
    = ([ {| method := "POST"; url := "/upload";
            contentType := "multipart/form-data";
            body := FormData [("file", file)] |} ],
       Js.Resolves response)
    /\ DocumentUpload.handleUpload post onUploadSuccess (st, parent)
       = (({| DocumentUpload.selectedFile := None;
              DocumentUpload.uploading := false;
              DocumentUpload.uploadStatus := DocumentUpload.success;
              DocumentUpload.errorMessage := "";
              DocumentUpload.successMessage :=
                if String.eqb (Api.message response) ""
                then "Document uploaded successfully"
                else Api.message response;
              DocumentUpload.isDragging := DocumentUpload.isDragging st;
              DocumentUpload.fileInput :=
                match DocumentUpload.fileInput st with
                | Some _ => Some ""
                | None => None
                end |},
           match onUploadSuccess with
           | Some callback => callback (Api.filename response) parent
           | None => parent
           end),
          [HttpPost (Api.uploadRequest file)]).
Proof.
  intros P post cb file st parent response Hsel Hpost.
  unfold Api.uploadDocument, DocumentUpload.handleUpload,
    DocumentUpload.handleUpload_start.
  rewrite Hsel. unfold Api.uploadDocument. rewrite Hpost.
  split; reflexivity.
Qed.

Lemma upload_success_flow_witness :
  let pdf := {| name := "notes.pdf"; type := "application/pdf"; content := "%PDF" |} in
  let response := {| Api.message := "Stored 3 chunks"; Api.filename := "notes.pdf" |} in
  let st := DocumentUpload.handleFileSelect pdf DocumentUpload.initial in
  fst (DocumentUpload.handleUpload (fun _ => Fulfilled response)
         (Some App.handleUploadSuccess) (st, App.initial))
  = ({| DocumentUpload.selectedFile := None;
        DocumentUpload.uploading := false;
        DocumentUpload.uploadStatus := DocumentUpload.success;
        DocumentUpload.errorMessage := "";
        DocumentUpload.successMessage := "Stored 3 chunks";
        DocumentUpload.isDragging := false;
        DocumentUpload.fileInput := Some "" |},
     {| App.currentSources := []; App.uploadedFiles := ["notes.pdf"] |}).
Proof.
  intros pdf response st.
  rewrite (proj2 (upload_success_flow App.State (fun _ => Fulfilled response)
                    (Some App.handleUploadSuccess) pdf st App.initial response
                    eq_refl eq_refl)).
  reflexivity.
Defined.

(** ** question-answer.tsx *)

(** C8: when the input is empty or white space only, or a request is in
    flight, [handleSubmit] returns at its guard: the component state (the
    messages, the input value, the loading flag) and the parent are as they
    were, nothing is asked of [askQuestion], and the only effect is the
    [preventDefault] that precedes the guard. *)
Theorem handleSubmit_guard_returns :
  forall (P : Type) (post : Request -> PostResult Api.AskResponse)
         (onSourcesUpdate : option (list Api.Source -> P -> P))
         (now date now' date' : Z) (st : QuestionAnswer.State) (parent : P),
    Js.whitespaceOnly (QuestionAnswer.inputValue st) = true
    \/ QuestionAnswer.isLoading st = true ->
    QuestionAnswer.handleSubmit_start now date st = (st, [PreventDefault], None)
    /\ QuestionAnswer.handleSubmit post onSourcesUpdate now date now' date' (st, parent)
       = ((st, parent), [PreventDefault])
    /\ QuestionAnswer.step onSourcesUpdate (QuestionAnswer.Submitted now date) (st, parent)
       = ((st, parent), []).
Proof.
  intros P post cb now date now' date' st parent H.
  apply guard_refuses in H.
  unfold QuestionAnswer.step, QuestionAnswer.handleSubmit,
    QuestionAnswer.handleSubmit_start.
  rewrite H. repeat split.
Qed.

Lemma handleSubmit_guard_returns_witness :
  let blank := {| QuestionAnswer.messages := [];
                  QuestionAnswer.inputValue := "   ";
                  QuestionAnswer.isLoading := false |} in
  let busy := {| QuestionAnswer.messages := [];
                 QuestionAnswer.inputValue := "What is Endee?";
                 QuestionAnswer.isLoading := true |} in
  let post := fun _ : Request =>
                Fulfilled {| Api.answer := "A vector database.";
                             Api.sources := Some [] |} in
  QuestionAnswer.handleSubmit post (Some App.handleSourcesUpdate) 1000 1000 1200 1200
    (blank, App.initial)
  = ((blank, App.initial), [PreventDefault])
  /\ QuestionAnswer.handleSubmit post (Some App.handleSourcesUpdate) 1000 1000 1200 1200
       (busy, App.initial)
     = ((busy, App.initial), [PreventDefault]).
Proof.
  intros blank busy post. split.
  - apply (handleSubmit_guard_returns App.State post (Some App.handleSourcesUpdate)
             1000 1000 1200 1200 blank App.initial).
    left. reflexivity.
  - apply (handleSubmit_guard_returns App.State post (Some App.handleSourcesUpdate)
             1000 1000 1200 1200 busy App.initial).
    right. reflexivity.
Defined.

(** One event adds at most one message at the end of the list and removes
    none. *)
Lemma step_appends {P : Type} (cb : option (list Api.Source -> P -> P))
    (ev : QuestionAnswer.Event) (stp : QuestionAnswer.State * P) :
  exists added,
    QuestionAnswer.messages (fst (fst (QuestionAnswer.step cb ev stp)))
    = QuestionAnswer.messages (fst stp) ++ added
    /\ length added <= 1.
Proof.
  destruct stp as [st parent].
  destruct ev as [value|now date|now date outcome]; simpl.
  - exists []. rewrite app_nil_r. split; [reflexivity | simpl; lia].
  - unfold QuestionAnswer.handleSubmit_start.
    destruct (_ || _); simpl.
    + exists []. rewrite app_nil_r. split; [reflexivity | simpl; lia].
    + eexists. split; [reflexivity | simpl; lia].
  - destruct outcome as [response|reason]; simpl;
      (eexists; split; [reflexivity | simpl; lia]).
Qed.

Lemma run_appends {P : Type} (cb : option (list Api.Source -> P -> P))
    (evs : list QuestionAnswer.Event) :
  forall stp : QuestionAnswer.State * P,
    QuestionAnswer.messages (fst stp)
      `prefix_of` QuestionAnswer.messages (fst (fst (QuestionAnswer.run cb evs stp))).
Proof.
  induction evs as [|ev evs IH]; intros stp; simpl; [reflexivity|].
  destruct (step_appends cb ev stp) as (added & Hstep & _).
  destruct (QuestionAnswer.step cb ev stp) as [stp1 asked]. simpl in Hstep.
  specialize (IH stp1).
  destruct (QuestionAnswer.run cb evs stp1) as [stp2 asked']. simpl in *.
  etransitivity; [|exact IH]. rewrite Hstep. apply prefix_app_r. reflexivity.
Qed.

(** While a request is in flight, an event other than its settlement leaves
    the messages, the loading flag and the parent alone and asks nothing
    more. *)
Lemma step_in_flight {P : Type} (cb : option (list Api.Source -> P -> P))
    (ev : QuestionAnswer.Event) (st : QuestionAnswer.State) (parent : P) :
  QuestionAnswer.isLoading st = true ->
  QuestionAnswer.isSettled ev = false ->
  exists st1,
    QuestionAnswer.step cb ev (st, parent) = ((st1, parent), [])
    /\ QuestionAnswer.messages st1 = QuestionAnswer.messages st
    /\ QuestionAnswer.isLoading st1 = true.
Proof.
  intros Hload Hev.
  destruct ev as [value|now date|now date outcome]; simpl in *.
  - eexists. repeat split. exact Hload.
  - unfold QuestionAnswer.handleSubmit_start. rewrite Hload, orb_true_r.
    eexists. repeat split. exact Hload.
  - discriminate.
Qed.

(** C9: the message list only ever grows at its end.  An accepted
    submission appends the user message carrying the submitted question and
    hands that question to [askQuestion]; until the request settles nothing
    else is appended or asked, whatever other events arrive; the settlement
    appends one assistant message, carrying the answer and its sources after
    a success and the error's message after a failure.  The handler run in
    one piece against [askQuestion] appends the same two messages. *)
Theorem messages_append_two_per_submission :
  forall (P : Type) (onSourcesUpdate : option (list Api.Source -> P -> P)),
    let question_of (now date : Z) (st : QuestionAnswer.State) :=
      {| QuestionAnswer.id := pretty now;
         QuestionAnswer.type := QuestionAnswer.user;
         QuestionAnswer.content := QuestionAnswer.inputValue st;
         QuestionAnswer.sources := None;
         QuestionAnswer.timestamp := date |} in
    let reply_of (now date : Z) (outcome : Js.Promise Api.AskResponse) :=
      match outcome with
      | Js.Resolves response =>
          {| QuestionAnswer.id := pretty (now + 1)%Z;
             QuestionAnswer.type := QuestionAnswer.assistant;
             QuestionAnswer.content := Api.answer response;
             QuestionAnswer.sources := Api.sources response;
             QuestionAnswer.timestamp := date |}
      | Js.Rejects reason =>
          {| QuestionAnswer.id := pretty (now + 1)%Z;
             QuestionAnswer.type := QuestionAnswer.assistant;
             QuestionAnswer.content :=
               match reason with
               | Js.IsError message => message
               | Js.NotError => "Failed to get answer. Please try again."
               end;
             QuestionAnswer.sources := None;
             QuestionAnswer.timestamp := date |}
      end in
    (forall (evs : list QuestionAnswer.Event) (stp : QuestionAnswer.State * P),
        QuestionAnswer.messages (fst stp)
          `prefix_of`
        QuestionAnswer.messages (fst (fst (QuestionAnswer.run onSourcesUpdate evs stp))))
    /\ forall (now date now' date' : Z) (st : QuestionAnswer.State) (parent : P),
         Js.whitespaceOnly (QuestionAnswer.inputValue st) = false ->
         QuestionAnswer.isLoading st = false ->
         (forall (between : list QuestionAnswer.Event)
                 (outcome : Js.Promise Api.AskResponse),
             Forall (fun ev => QuestionAnswer.isSettled ev = false) between ->
             QuestionAnswer.messages
               (fst (fst (QuestionAnswer.run onSourcesUpdate
                            (QuestionAnswer.Submitted now date :: between
                               ++ [QuestionAnswer.AskSettled now' date' outcome])
                            (st, parent))))
             = QuestionAnswer.messages st
                 ++ [question_of now date st; reply_of now' date' outcome]
             /\ snd (QuestionAnswer.run onSourcesUpdate
                       (QuestionAnswer.Submitted now date :: between
                          ++ [QuestionAnswer.AskSettled now' date' outcome])
                       (st, parent))
                = [QuestionAnswer.inputValue st])
         /\ forall post : Request -> PostResult Api.AskResponse,
              QuestionAnswer.messages
                (fst (fst (QuestionAnswer.handleSubmit post onSourcesUpdate
                             now date now' date' (st, parent))))
              = QuestionAnswer.messages st
                  ++ [question_of now date st;
                      reply_of now' date'
                        (snd (Api.askQuestion post (QuestionAnswer.inputValue st)))].
Proof.
  intros P cb question_of reply_of. split; [apply run_appends|].
  intros now date now' date' st parent Hinput Hidle.
  pose proof (guard_accepts st Hinput Hidle) as Hguard.
  split.
  - intros between outcome Hbetween.
    cbn [QuestionAnswer.run QuestionAnswer.step].
    unfold QuestionAnswer.handleSubmit_start. rewrite Hguard.
    set (st1 := QuestionAnswer.setIsLoading true _).
    assert (Hrun : forall stp : QuestionAnswer.State * P,
               QuestionAnswer.isLoading (fst stp) = true ->
               QuestionAnswer.messages
                 (fst (fst (QuestionAnswer.run cb
                              (between ++ [QuestionAnswer.AskSettled now' date' outcome])
                              stp)))
               = QuestionAnswer.messages (fst stp) ++ [reply_of now' date' outcome]
               /\ snd (QuestionAnswer.run cb
                         (between ++ [QuestionAnswer.AskSettled now' date' outcome])
                         stp) = []).
    { clear -Hbetween. induction Hbetween as [|ev evs Hev Hevs IH]; intros [s p] Hl.
      - simpl. destruct outcome; simpl; auto.
      - destruct (step_in_flight cb ev s p Hl Hev) as (s1 & Hstep & Hm & Hl').
        rewrite <- app_comm_cons. cbn [QuestionAnswer.run]. rewrite Hstep.
        specialize (IH (s1, p) Hl').
        destruct (QuestionAnswer.run cb _ (s1, p)) as [stp2 asked']. simpl in *.
        destruct IH as [-> ->]. rewrite Hm. auto. }
    specialize (Hrun (st1, parent) eq_refl).
    destruct (QuestionAnswer.run cb _ (st1, parent)) as [stp2 asked']. simpl in *.
    destruct Hrun as [-> ->]. subst st1. simpl.
    rewrite <- app_assoc. auto.
  - intros post. unfold QuestionAnswer.handleSubmit, QuestionAnswer.handleSubmit_start.
    rewrite Hguard. simpl.
    destruct (post (Api.askRequest (QuestionAnswer.inputValue st)));
      simpl; rewrite <- app_assoc; reflexivity.
Qed.

Lemma messages_append_two_per_submission_witness :
  let st := {| QuestionAnswer.messages := [];
               QuestionAnswer.inputValue := "What is Endee?";
               QuestionAnswer.isLoading := false |} in
  let response := {| Api.answer := "A vector database.";
                     Api.sources := Some [] |} in
  map (fun m => (QuestionAnswer.type m, QuestionAnswer.content m))
    (QuestionAnswer.messages
       (fst (fst (QuestionAnswer.run (Some App.handleSourcesUpdate)
                    [QuestionAnswer.Submitted 1000 1000;
                     QuestionAnswer.InputChanged "And Qdrant?";
                     QuestionAnswer.Submitted 1100 1100;
                     QuestionAnswer.AskSettled 1200 1200 (Js.Resolves response)]
                    (st, App.initial)))))
  = [(QuestionAnswer.user, "What is Endee?");
     (QuestionAnswer.assistant, "A vector database.")].
Proof.
  intros st response.
  assert (Hbetween :
            Forall (fun ev => QuestionAnswer.isSettled ev = false)
              [QuestionAnswer.InputChanged "And Qdrant?";
               QuestionAnswer.Submitted 1100 1100]).
  { repeat constructor. }
  pose proof (proj1 (proj1 (proj2 (messages_append_two_per_submission
                                     App.State (Some App.handleSourcesUpdate))
                                  1000%Z 1000%Z 1200%Z 1200%Z st App.initial
                                  eq_refl eq_refl)
                           _ (Js.Resolves response) Hbetween)) as Hrun.
  simpl app in Hrun. rewrite Hrun. reflexivity.
Defined.

(** ** App.tsx *)

Lemma app_step_uploadedFiles (ev : App.Event) (page : App.Page) :
  App.uploadedFiles (App.app (App.step ev page))
  = App.uploadedFiles (App.app page)
      ++ match ev with
         | App.InUpload (DocumentUpload.UploadSettled (Js.Resolves response)) =>
             [Api.filename response]
         | _ => []
         end.
Proof.
  destruct page as [a du qa].
  destruct ev as [ev|ev]; simpl.
  - destruct ev as [files| | |files| | |outcome]; simpl;
      try (rewrite app_nil_r; reflexivity).
    + destruct (DocumentUpload.handleUpload_start du) as [du' sent]. simpl.
      rewrite app_nil_r. reflexivity.
    + destruct outcome as [response|reason]; simpl;
        [reflexivity | rewrite app_nil_r; reflexivity].
  - destruct ev as [value|now date|now date outcome]; simpl.
    + rewrite app_nil_r. reflexivity.
    + destruct (QuestionAnswer.handleSubmit_start now date qa) as [[qa' effects] asked].
      simpl. rewrite app_nil_r. reflexivity.
    + destruct outcome as [response|reason]; simpl;
        [destruct (Api.sources response)|]; simpl; rewrite app_nil_r; reflexivity.
Qed.

Lemma app_run_uploadedFiles (evs : list App.Event) :
  forall page : App.Page,
    App.uploadedFiles (App.app page)
      `prefix_of` App.uploadedFiles (App.app (App.run evs page)).
Proof.
  unfold App.run.
  induction evs as [|ev evs IH]; intros page; simpl; [reflexivity|].
  etransitivity; [|apply IH].
  rewrite app_step_uploadedFiles. apply prefix_app_r. reflexivity.
Qed.

(** C10: when an answer arrives whose body has [sources], the page's
    [currentSources] becomes that list, whatever it held before, and the
    uploaded files stay as they were; when an upload succeeds, its
    [filename] is added at the end of [uploadedFiles] and the sources stay
    as they were.  No event removes or changes an entry of [uploadedFiles]:
    along every run the earlier list is a prefix of the later one. *)
Theorem app_sources_replaced_files_appended :
  (forall (now date : Z) (response : Api.AskResponse)
          (sources : list Api.Source) (page : App.Page),
      Api.sources response = Some sources ->
      App.app (App.step (App.InQuestion
                           (QuestionAnswer.AskSettled now date (Js.Resolves response)))
                        page)
      = {| App.currentSources := sources;
           App.uploadedFiles := App.uploadedFiles (App.app page) |})
  /\ (forall (response : Api.UploadResponse) (page : App.Page),
         App.app (App.step (App.InUpload
                              (DocumentUpload.UploadSettled (Js.Resolves response)))
                           page)
         = {| App.currentSources := App.currentSources (App.app page);
              App.uploadedFiles :=
                App.uploadedFiles (App.app page) ++ [Api.filename response] |})
  /\ (forall (ev : App.Event) (page : App.Page),
         App.uploadedFiles (App.app (App.step ev page))
         = App.uploadedFiles (App.app page)
             ++ match ev with
                | App.InUpload (DocumentUpload.UploadSettled (Js.Resolves response)) =>
                    [Api.filename response]
                | _ => []
                end)
  /\ (forall (evs : list App.Event) (page : App.Page),
         App.uploadedFiles (App.app page)
           `prefix_of` App.uploadedFiles (App.app (App.run evs page))).
Proof.
  split; [|split; [|split]].
  - intros now date response sources [a du qa] Hsources. simpl.
    rewrite Hsources. reflexivity.
  - intros response [a du qa]. reflexivity.
  - apply app_step_uploadedFiles.
  - intros evs page. apply app_run_uploadedFiles.
Qed.

Lemma app_sources_replaced_files_appended_witness :
  let old := {| Api.text := "An earlier chunk"; Api.metadata := None |} in
  let new := {| Api.text := "Endee stores vectors.";
                Api.metadata := Some [("page", JNum 2)] |} in
  let page := {| App.app := {| App.currentSources := [old; old];
                               App.uploadedFiles := ["a.pdf"] |};
                 App.documentUpload := DocumentUpload.initial;
                 App.questionAnswer := QuestionAnswer.initial |} in
  App.currentSources
    (App.app (App.step
                (App.InQuestion
                   (QuestionAnswer.AskSettled 1200 1200
                      (Js.Resolves {| Api.answer := "A vector database.";
                                      Api.sources := Some [new] |})))
                page))
  = [new].
Proof.
  intros old new page.
  rewrite (proj1 app_sources_replaced_files_appended 1200%Z 1200%Z
             {| Api.answer := "A vector database."; Api.sources := Some [new] |}
             [new] page eq_refl).
  reflexivity.
Defined.

(** * Properties of the retrieval pipeline *)

(** ** Ranking *)

Lemma score_order_cases (x y : Qc) : (x < y)%Qc \/ x = y \/ (y < x)%Qc.
Proof.
  destruct (Qclt_le_dec x y) as [H | H]; [auto|].
  destruct (Qcle_lt_or_eq _ _ H) as [H' | H']; auto.
Qed.

#[local] Instance scored_ranks_total : Total VectorStore.ranks.
Proof.
  intros a b. unfold VectorStore.ranks.
  destruct (score_order_cases (VectorStore.score a) (VectorStore.score b))
    as [H | [H | H]]; auto.
  destruct (String.le_total (VectorStore.id (VectorStore.record a))
                            (VectorStore.id (VectorStore.record b))); auto.
Qed.

#[local] Instance scored_ranks_trans : Transitive VectorStore.ranks.
Proof.
  intros a b c [Hab | [Eab Lab]] [Hbc | [Ebc Lbc]]; unfold VectorStore.ranks.
  - left. eapply Qclt_trans; eassumption.
  - left. rewrite <- Ebc. exact Hab.
  - left. rewrite Eab. exact Hbc.
  - right. split; [congruence|]. etransitivity; eassumption.
Qed.

Lemma expose_ranks (a b : VectorStore.Scored) :
  VectorStore.ranks a b -> Retriever.ranks (Retriever.expose a) (Retriever.expose b).
Proof. intros H. exact H. Qed.

Lemma StronglySorted_sublist {A : Type} (R : relation A) (l k : list A) :
  l `sublist_of` k -> StronglySorted R k -> StronglySorted R l.
Proof.
  induction 1 as [|x l k Hsub IH|x l k Hsub IH]; intros Hk.
  - constructor.
  - apply StronglySorted_inv in Hk as [Hk Hx]. constructor; [auto|].
    rewrite Forall_forall in Hx |- *. intros y Hy%list_elem_of_In.
    apply Hx, list_elem_of_In. eapply elem_of_sublist; eassumption.
  - apply StronglySorted_inv in Hk as [Hk _]. auto.
Qed.

Lemma bool_filter_sublist {A : Type} (p : A -> bool) (l : list A) :
  List.filter p l `sublist_of` l.
Proof.
  induction l as [|x l IH]; simpl; [constructor|].
  destruct (p x); constructor; exact IH.
Qed.

Lemma sublist_fmap_mono {A B : Type} (f : A -> B) (l k : list A) :
  l `sublist_of` k -> (f <$> l) `sublist_of` (f <$> k).
Proof. induction 1; csimpl; constructor; assumption. Qed.

(** ** The index holds one record per id *)

Lemma records_ids (store : gmap string VectorStore.Stored) :
  VectorStore.id <$> VectorStore.records store = (map_to_list store).*1.
Proof.
  unfold VectorStore.records. rewrite <- list_fmap_compose.
  apply list_fmap_ext. intros i [k v] _. reflexivity.
Qed.

Lemma query_ids_NoDup similarity store v top_k filter_ results :
  VectorStore.query similarity store v top_k filter_ = Ok results ->
  NoDup (Retriever.id <$> (Retriever.expose <$> results)).
Proof.
  unfold VectorStore.query. destruct (top_k <=? 0)%Z; [discriminate|].
  intros [= <-]. rewrite <- list_fmap_compose.
  eapply sublist_NoDup; [|apply sublist_fmap_mono, sublist_take].
  rewrite merge_sort_Permutation. rewrite <- list_fmap_compose.
  eapply sublist_NoDup; [|apply sublist_fmap_mono, bool_filter_sublist].
  change (NoDup (VectorStore.id <$> VectorStore.records store)).
  rewrite records_ids. apply NoDup_fst_map_to_list.
Qed.

Lemma query_sorted similarity store v top_k filter_ results :
  VectorStore.query similarity store v top_k filter_ = Ok results ->
  StronglySorted VectorStore.ranks results.
Proof.
  unfold VectorStore.query. destruct (top_k <=? 0)%Z; [discriminate|].
  intros [= <-].
  eapply StronglySorted_sublist; [apply sublist_take|].
  apply StronglySorted_merge_sort; apply _.
Qed.

Lemma dedup_NoDup (l : list Retriever.Source) :
  forall seen : gset string,
    NoDup (Retriever.id <$> l) ->
    (forall s, s ∈ l -> Retriever.id s ∉ seen) ->
    Retriever.dedup seen l = l.
Proof.
  induction l as [|s l IH]; intros seen Hnd Hseen; simpl; [reflexivity|].
  csimpl in Hnd. inversion Hnd as [|? ? Hs Hnd']; subst. clear Hnd.
  destruct (decide (Retriever.id s ∈ seen)) as [Hin | _].
  - exfalso. apply (Hseen s); [left | exact Hin].
  - f_equal. apply IH; [exact Hnd'|].
    intros s' Hs'. rewrite elem_of_union, elem_of_singleton.
    intros [Heq | Hin].
    + apply Hs. rewrite <- Heq. apply list_elem_of_fmap_2. exact Hs'.
    + apply (Hseen s'); [right; exact Hs' | exact Hin].
Qed.

Lemma filter_meets_None (l : list Retriever.Source) :
  filter (Retriever.meets None) l = l.
Proof.
  induction l as [|s l IH]; [reflexivity|].
  rewrite filter_cons. destruct (decide (Retriever.meets None s)) as [_ | H].
  - f_equal. exact IH.
  - exfalso. apply H. exact I.
Qed.

(** Without duplicates to drop, [search] is the query's results from the
    threshold upwards. *)
Lemma search_unfold similarity store v top_k threshold results :
  VectorStore.query similarity store v top_k None = Ok results ->
  Retriever.search similarity store v top_k threshold
  = Ok (filter (Retriever.meets threshold) (Retriever.expose <$> results)).
Proof.
  intros Hq. unfold Retriever.search. rewrite Hq. f_equal.
  apply dedup_NoDup.
  - eapply sublist_NoDup; [|apply sublist_fmap_mono, sublist_filter].
    eapply query_ids_NoDup, Hq.
  - intros s _. apply not_elem_of_empty.
Qed.

Lemma bool_filter_all {A : Type} (l : list A) :
  List.filter (fun _ => true) l = l.
Proof. induction l as [|x l IH]; simpl; [reflexivity | f_equal; exact IH]. Qed.

(** Without a metadata filter, [query] is the first [top_k] of the whole
    index, every record scored against the query vector and the lot sorted
    by rank. *)
Lemma query_unfiltered (similarity : VectorStore.Vector -> VectorStore.Vector -> Qc)
    (store : gmap string VectorStore.Stored) (v : VectorStore.Vector) (top_k : Z) :
  (0 < top_k)%Z ->
  VectorStore.query similarity store v top_k None
  = Ok (take (Z.to_nat top_k)
          (merge_sort VectorStore.ranks
             ((fun r => {| VectorStore.record := r;
                           VectorStore.score := similarity v (VectorStore.vector r) |})
                <$> VectorStore.records store))).
Proof.
  intros Hk. unfold VectorStore.query.
  destruct (top_k <=? 0)%Z eqn:E; [lia|].
  rewrite bool_filter_all. reflexivity.
Qed.

Lemma ranking_elements (similarity : VectorStore.Vector -> VectorStore.Vector -> Qc)
    (store : gmap string VectorStore.Stored) (v : VectorStore.Vector)
    (x : VectorStore.Scored) :
  x ∈ merge_sort VectorStore.ranks
        ((fun r => {| VectorStore.record := r;
                      VectorStore.score := similarity v (VectorStore.vector r) |})
           <$> VectorStore.records store)
  <-> exists (i : string) (stored : VectorStore.Stored),
        store !! i = Some stored
        /\ x = {| VectorStore.record :=
                    {| VectorStore.id := i;
                       VectorStore.vector := VectorStore.stored_vector stored;
                       VectorStore.text := VectorStore.stored_text stored;
                       VectorStore.metadata := VectorStore.stored_metadata stored |};
                  VectorStore.score :=
                    similarity v (VectorStore.stored_vector stored) |}.
Proof.
  rewrite merge_sort_Permutation. unfold VectorStore.records.
  rewrite list_elem_of_fmap. split.
  - intros (r & -> & Hr). apply list_elem_of_fmap in Hr as ([i stored] & -> & Hin).
    apply elem_of_map_to_list in Hin. exists i, stored. split; [exact Hin | reflexivity].
  - intros (i & stored & Hin & ->).
    exists {| VectorStore.id := i;
              VectorStore.vector := VectorStore.stored_vector stored;
              VectorStore.text := VectorStore.stored_text stored;
              VectorStore.metadata := VectorStore.stored_metadata stored |}.
    split; [reflexivity|].
    apply list_elem_of_fmap. exists (i, stored). split; [reflexivity|].
    apply elem_of_map_to_list, Hin.
Qed.

(** C7: for every index, metric and query vector, and every valid [top_k],
    what [search] returns is sorted by descending similarity score, ties by
    ascending id, with or without a threshold.  Every entry is a record of
    the index, with that record's text and metadata and the similarity of
    its vector to the query vector as its score; no id comes twice; there
    are [top_k] entries, or all the records when the index holds fewer;
    and every record left out ranks after every entry returned.  With a
    threshold the result is the unthresholded result with the entries below
    the threshold taken out: the entries that stay keep their order, none
    of them is below the threshold, and every entry taken out is below
    it. *)
Theorem search_sorted_and_thresholded :
  forall (similarity : VectorStore.Vector -> VectorStore.Vector -> Qc)
         (store : gmap string VectorStore.Stored)
         (query_vector : VectorStore.Vector) (top_k : Z),
    (0 < top_k)%Z ->
    exists ranked : list Retriever.Source,
      Retriever.search similarity store query_vector top_k None = Ok ranked
      /\ StronglySorted Retriever.ranks ranked
      /\ (forall s, s ∈ ranked ->
          exists stored : VectorStore.Stored,
            store !! Retriever.id s = Some stored
            /\ Retriever.text s = VectorStore.stored_text stored
            /\ Retriever.metadata s = VectorStore.stored_metadata stored
            /\ Retriever.score s
               = similarity query_vector (VectorStore.stored_vector stored))
      /\ NoDup (Retriever.id <$> ranked)
      /\ length ranked = Nat.min (Z.to_nat top_k) (size store)
      /\ (forall (i : string) (stored : VectorStore.Stored),
             store !! i = Some stored ->
             i ∉ Retriever.id <$> ranked ->
             forall s, s ∈ ranked ->
               Retriever.ranks s
                 {| Retriever.id := i;
                    Retriever.text := VectorStore.stored_text stored;
                    Retriever.metadata := VectorStore.stored_metadata stored;
                    Retriever.score :=
                      similarity query_vector (VectorStore.stored_vector stored) |})
      /\ forall threshold : Qc,
           exists kept : list Retriever.Source,
             Retriever.search similarity store query_vector top_k (Some threshold)
             = Ok kept
             /\ StronglySorted Retriever.ranks kept
             /\ kept `sublist_of` ranked
             /\ (forall s, s ∈ kept -> (threshold <= Retriever.score s)%Qc)
             /\ (forall s, s ∈ ranked -> s ∉ kept ->
                           (Retriever.score s < threshold)%Qc).
Proof.
  intros similarity store v top_k Hk.
  pose proof (query_unfiltered similarity store v top_k Hk) as Hq.
  pose proof (ranking_elements similarity store v) as Helements.
  set (ranking := merge_sort VectorStore.ranks
                    ((fun r => {| VectorStore.record := r;
                                  VectorStore.score :=
                                    similarity v (VectorStore.vector r) |})
                       <$> VectorStore.records store)) in *.
  set (results := take (Z.to_nat top_k) ranking) in *.
  assert (Hranking : StronglySorted VectorStore.ranks ranking).
  { apply StronglySorted_merge_sort; apply _. }
  assert (Hsorted : StronglySorted Retriever.ranks (Retriever.expose <$> results)).
  { eapply StronglySorted_fmap; [apply expose_ranks|].
    eapply query_sorted, Hq. }
  exists (Retriever.expose <$> results).
  split; [rewrite (search_unfold _ _ _ _ None results Hq), filter_meets_None; reflexivity|].
  split; [exact Hsorted|].
  split.
  { intros s (x & -> & Hx)%list_elem_of_fmap.
    assert (Hin : x ∈ ranking).
    { eapply elem_of_sublist; [exact Hx | apply sublist_take]. }
    apply Helements in Hin as (i & stored & Hstored & ->).
    exists stored. simpl. auto. }
  split; [eapply query_ids_NoDup, Hq|].
  split.
  { rewrite length_fmap. subst results. rewrite length_take. f_equal.
    subst ranking. rewrite merge_sort_Permutation, length_fmap.
    unfold VectorStore.records. rewrite length_fmap. apply length_map_to_list. }
  split.
  { intros i stored Hstored Hout s (x & -> & Hx)%list_elem_of_fmap.
    apply (expose_ranks x
             {| VectorStore.record :=
                  {| VectorStore.id := i;
                     VectorStore.vector := VectorStore.stored_vector stored;
                     VectorStore.text := VectorStore.stored_text stored;
                     VectorStore.metadata := VectorStore.stored_metadata stored |};
                VectorStore.score := similarity v (VectorStore.stored_vector stored) |}).
    eapply (StronglySorted_app_1_elem_of _ results (drop (Z.to_nat top_k) ranking));
      [subst results; rewrite take_drop; exact Hranking | exact Hx |].
    assert (Hin : {| VectorStore.record :=
                       {| VectorStore.id := i;
                          VectorStore.vector := VectorStore.stored_vector stored;
                          VectorStore.text := VectorStore.stored_text stored;
                          VectorStore.metadata := VectorStore.stored_metadata stored |};
                     VectorStore.score :=
                       similarity v (VectorStore.stored_vector stored) |} ∈ ranking).
    { apply Helements. exists i, stored. auto. }
    rewrite <- (take_drop (Z.to_nat top_k) ranking) in Hin.
    apply elem_of_app in Hin as [Hin | Hin]; [|exact Hin].
    exfalso. apply Hout. rewrite <- list_fmap_compose.
    apply list_elem_of_fmap. eexists. split; [|exact Hin]. reflexivity. }
  intros threshold.
  exists (filter (Retriever.meets (Some threshold)) (Retriever.expose <$> results)).
  split; [apply search_unfold, Hq|].
  split; [eapply StronglySorted_sublist; [apply sublist_filter | exact Hsorted]|].
  split; [apply sublist_filter|].
  split.
  + intros s [Hs _]%list_elem_of_filter. exact Hs.
  + intros s Hin Hout. apply Qcnot_le_lt. intros Hle. apply Hout.
    apply list_elem_of_filter. split; [exact Hle | exact Hin].
Qed.

Lemma search_sorted_and_thresholded_witness :
  let half := Q2Qc (1 # 2) in
  let entry i v :=
    {| VectorStore.id := i; VectorStore.vector := v;
       VectorStore.text := i; VectorStore.metadata := ∅ |} in
  let store :=
    fst (VectorStore.upsert
           [entry "b" [1%Qc; 0%Qc]; entry "a" [1%Qc; 0%Qc];
            entry "c" [half; half]; entry "d" [0%Qc; 1%Qc]] ∅) in
  exists ranked kept,
    Retriever.search VectorStore.dot store [1%Qc; 0%Qc] 3 None = Ok ranked
    /\ Retriever.search VectorStore.dot store [1%Qc; 0%Qc] 3 (Some 1%Qc) = Ok kept
    /\ StronglySorted Retriever.ranks ranked
    /\ kept `sublist_of` ranked.
Proof.
  intros half entry store.
  destruct (search_sorted_and_thresholded VectorStore.dot store [1%Qc; 0%Qc] 3
              eq_refl) as (ranked & Hranked & Hsorted & _ & _ & _ & _ & Hthreshold).
  destruct (Hthreshold 1%Qc) as (kept & Hkept & _ & Hsub & _).
  exists ranked, kept. auto.
Defined.

(** ** Answering without sources *)

Lemma search_empty_store similarity v top_k threshold :
  (0 < top_k)%Z ->
  Retriever.search similarity ∅ v top_k threshold = Ok [].
Proof.
  intros Hk. unfold Retriever.search, VectorStore.query, VectorStore.records.
  destruct (top_k <=? 0)%Z eqn:E; [lia|].
  rewrite map_to_list_empty. simpl.
  change (merge_sort VectorStore.ranks []) with (@nil VectorStore.Scored).
  rewrite take_nil. reflexivity.
Qed.

(** C5: when retrieval comes back empty, [answer] still asks the generative
    model, with an empty context, and returns its text with an empty source
    list; the empty retrieval is no failure, and only a failing generative
    model makes one.  That is the case on an empty index.  On the page such an answer is an ordinary assistant message: the
    settled handler appends the answer with its empty source list, [App]
    stores the empty list and leaves the sources section out, and a
    [SourcesPanel] given the empty list shows its placeholder. *)
Theorem answer_without_sources :
  (forall (encode : string -> option VectorStore.Vector)
          (generate : Orchestrator.Prompt -> option string)
          (similarity : VectorStore.Vector -> VectorStore.Vector -> Qc)
          (budget : nat) (store : gmap string VectorStore.Stored)
          (query : Orchestrator.Query)
          (query_vector : VectorStore.Vector),
      encode (Orchestrator.question query) = Some query_vector ->
      Retriever.search similarity store query_vector
        (default Orchestrator.default_top_k (Orchestrator.top_k query))
        (Orchestrator.score_threshold query) = Ok [] ->
      Orchestrator.answer encode generate similarity budget store query
      = match generate
                {| Orchestrator.instruction := Orchestrator.grounding_instruction;
                   Orchestrator.context := [];
                   Orchestrator.asked := Orchestrator.question query |} with
        | Some generated =>
            Ok {| Orchestrator.text := generated; Orchestrator.sources := [] |}
        | None => Err Orchestrator.GenerationError
        end)
  /\ (forall (encode : string -> option VectorStore.Vector)
             (generate : Orchestrator.Prompt -> option string)
             (similarity : VectorStore.Vector -> VectorStore.Vector -> Qc)
             (budget : nat) (query : Orchestrator.Query)
             (query_vector : VectorStore.Vector) (generated : string),
         encode (Orchestrator.question query) = Some query_vector ->
         (0 < default Orchestrator.default_top_k (Orchestrator.top_k query))%Z ->
         generate {| Orchestrator.instruction := Orchestrator.grounding_instruction;
                     Orchestrator.context := [];
                     Orchestrator.asked := Orchestrator.question query |}
         = Some generated ->
         Orchestrator.answer encode generate similarity budget ∅ query
         = Ok {| Orchestrator.text := generated; Orchestrator.sources := [] |})
  /\ (forall (now date : Z) (answer : string)
             (st : QuestionAnswer.State) (app : App.State),
         QuestionAnswer.handleSubmit_finish (Some App.handleSourcesUpdate) now date
           (Js.Resolves {| Api.answer := answer; Api.sources := Some [] |})
           (st, app)
         = (({| QuestionAnswer.messages :=
                  QuestionAnswer.messages st
                    ++ [ {| QuestionAnswer.id := pretty (now + 1)%Z;
                            QuestionAnswer.type := QuestionAnswer.assistant;
                            QuestionAnswer.content := answer;
                            QuestionAnswer.sources := Some [];
                            QuestionAnswer.timestamp := date |} ];
                QuestionAnswer.inputValue := QuestionAnswer.inputValue st;
                QuestionAnswer.isLoading := false |},
             {| App.currentSources := [];
                App.uploadedFiles := App.uploadedFiles app |}),
            [FocusInput]))
  /\ (forall app : App.State,
         App.currentSources app = [] ->
         App.sourcesSection (App.render app) = None)
  /\ SourcesPanel.SourcesPanel []
     = {| SourcesPanel.heading := "Retrieved Sources";
          SourcesPanel.summary := "No sources available";
          SourcesPanel.body :=
            SourcesPanel.Placeholder "Ask a question to see relevant sources" |}.
Proof.
  assert (Hgeneral :
            forall encode generate similarity budget store query query_vector,
              encode (Orchestrator.question query) = Some query_vector ->
              Retriever.search similarity store query_vector
                (default Orchestrator.default_top_k (Orchestrator.top_k query))
                (Orchestrator.score_threshold query) = Ok [] ->
              Orchestrator.answer encode generate similarity budget store query
              = match generate
                        {| Orchestrator.instruction := Orchestrator.grounding_instruction;
                           Orchestrator.context := [];
                           Orchestrator.asked := Orchestrator.question query |} with
                | Some generated =>
                    Ok {| Orchestrator.text := generated; Orchestrator.sources := [] |}
                | None => Err Orchestrator.GenerationError
                end).
  { intros encode generate similarity budget store query v He Hs.
    unfold Orchestrator.answer. rewrite He, Hs. reflexivity. }
  split; [exact Hgeneral|].
  split.
  { intros encode generate similarity budget query v generated He Hk Hg.
    rewrite (Hgeneral encode generate similarity budget ∅ query v He
               (search_empty_store _ _ _ _ Hk)).
    rewrite Hg. reflexivity. }
  split; [reflexivity|].
  split; [|reflexivity].
  intros app Happ. unfold App.render. rewrite Happ. reflexivity.
Qed.

Lemma answer_without_sources_witness :
  Orchestrator.answer
    (fun _ => Some [1%Qc; 0%Qc])
    (fun prompt => Some "I have no documents to answer from.")
    VectorStore.dot 2000 ∅
    {| Orchestrator.question := "What color is the sky?";
       Orchestrator.top_k := None;
       Orchestrator.score_threshold := None |}
  = Ok {| Orchestrator.text := "I have no documents to answer from.";
          Orchestrator.sources := [] |}.
Proof.
  apply (proj1 (proj2 answer_without_sources)
               (fun _ => Some [1%Qc; 0%Qc])
               (fun prompt => Some "I have no documents to answer from.")
               VectorStore.dot 2000
               {| Orchestrator.question := "What color is the sky?";
                  Orchestrator.top_k := None;
                  Orchestrator.score_threshold := None |}
               [1%Qc; 0%Qc] "I have no documents to answer from.");
    reflexivity.
Defined.

(** ** Chunking *)

Lemma nearest_boundary_near (text : string) (lookback : nat) :
  forall pos boundary : nat,
    Chunker.nearest_boundary text lookback pos = Some boundary ->
    boundary <= pos /\ pos <= boundary + lookback.
Proof.
  induction lookback as [|k IH]; intros pos boundary; simpl;
    destruct (Chunker.boundary_before text pos);
    try (intros [= <-]; lia); try discriminate.
  destruct pos as [|pos]; [discriminate|].
  intros H%IH. lia.
Qed.

Lemma snap_near (text : string) (lookback pos : nat) :
  Chunker.snap text lookback pos <= pos
  /\ pos <= Chunker.snap text lookback pos + lookback.
Proof.
  unfold Chunker.snap.
  destruct (Chunker.nearest_boundary text lookback pos) as [b|] eqn:E; [|lia].
  apply nearest_boundary_near in E. lia.
Qed.

Lemma windows_head (fuel : nat) (text : string) (size overlap lookback index start : nat)
    (c : Chunker.Chunk) :
  Chunker.windows fuel text size overlap lookback index start !! 0 = Some c ->
  Chunker.start c = start.
Proof.
  destruct fuel as [|fuel]; simpl; [discriminate|].
  destruct (String.length text <=? start + size); intros [= <-]; reflexivity.
Qed.

(** Each window starts [overlap] before the break of the one before it, and
    the one before it is at most the look-back short of its full size. *)
Lemma windows_adjacent (text : string) (size overlap lookback : nat) (fuel : nat) :
  forall (index start i : nat) (c d : Chunker.Chunk),
    overlap < size ->
    Chunker.windows fuel text size overlap lookback index start !! i = Some c ->
    Chunker.windows fuel text size overlap lookback index start !! S i = Some d ->
    Chunker.start d + overlap = Chunker.stop c
    /\ Chunker.stop c <= Chunker.start c + size
    /\ Chunker.start c + size
       <= Chunker.stop c + Nat.min lookback (size - overlap - 1).
Proof.
  induction fuel as [|fuel IH]; intros index start i c d Hcfg; simpl; [discriminate|].
  destruct (String.length text <=? start + size); [discriminate|].
  destruct i as [|i]; simpl.
  - intros [= <-] Hd. apply windows_head in Hd. simpl.
    pose proof (snap_near text (Nat.min lookback (size - overlap - 1)) (start + size)).
    lia.
  - apply IH, Hcfg.
Qed.

Lemma ceil_div_one (a b : Z) :
  (0 < a <= b)%Z -> Chunker.ceil_div a b = 1%Z.
Proof.
  intros H. unfold Chunker.ceil_div. symmetry.
  apply Z.div_unique with (r := (a - 1)%Z); lia.
Qed.

Lemma ceil_div_next (a b : Z) :
  (0 < b)%Z -> Chunker.ceil_div a b = (1 + Chunker.ceil_div (a - b) b)%Z.
Proof.
  intros H. unfold Chunker.ceil_div.
  replace (a + b - 1)%Z with ((a - b + b - 1) + 1 * b)%Z by lia.
  rewrite Z.div_add by lia. lia.
Qed.

Lemma ceil_div_positive (a b : Z) :
  (0 < a)%Z -> (0 < b)%Z -> (1 <= Chunker.ceil_div a b)%Z.
Proof.
  intros Ha Hb. unfold Chunker.ceil_div.
  apply Z.div_le_lower_bound; lia.
Qed.

Lemma ceil_div_mono (a a' b : Z) :
  (0 < b)%Z -> (a <= a')%Z -> (Chunker.ceil_div a b <= Chunker.ceil_div a' b)%Z.
Proof.
  intros Hb Ha. unfold Chunker.ceil_div. apply Z.div_le_mono; lia.
Qed.

(** With the rest of the text as fuel, the loop started at [start] makes at
    least [ceil ((len - start - overlap) / (size - overlap))] windows, and
    at most as many as if every window were the whole look-back short; the
    last one ends where the text ends. *)
Lemma windows_count (text : string) (size overlap lookback : nat) (fuel : nat) :
  forall index start : nat,
    overlap < size ->
    start + overlap < String.length text ->
    String.length text - start <= fuel ->
    (Chunker.ceil_div (Z.of_nat (String.length text) - Z.of_nat start - Z.of_nat overlap)
                      (Z.of_nat size - Z.of_nat overlap)
     <= Z.of_nat (length (Chunker.windows fuel text size overlap lookback index start))
     <= Chunker.ceil_div
          (Z.of_nat (String.length text) - Z.of_nat start - Z.of_nat overlap)
          (Z.of_nat size - Z.of_nat overlap
           - Z.of_nat (Nat.min lookback (size - overlap - 1))))%Z
    /\ exists c : Chunker.Chunk,
         list.last (Chunker.windows fuel text size overlap lookback index start) = Some c
         /\ Chunker.stop c = String.length text.
Proof.
  induction fuel as [|fuel IH]; intros index start Hcfg Hstart Hfuel; [lia|].
  simpl Chunker.windows.
  destruct (String.length text <=? start + size) eqn:E.
  - apply Nat.leb_le in E. split; [|eexists; split; reflexivity].
    simpl length. rewrite ceil_div_one by lia.
    pose proof (ceil_div_positive
                  (Z.of_nat (String.length text) - Z.of_nat start - Z.of_nat overlap)
                  (Z.of_nat size - Z.of_nat overlap
                   - Z.of_nat (Nat.min lookback (size - overlap - 1)))).
    lia.
  - apply Nat.leb_gt in E.
    pose proof (snap_near text (Nat.min lookback (size - overlap - 1)) (start + size))
      as [Hle Hge].
    set (stop := Chunker.snap text (Nat.min lookback (size - overlap - 1)) (start + size))
      in *.
    destruct (IH (S index) (stop - overlap)) as [[Hlow Hhigh] (c & Hlast & Hstop)];
      [lia | lia | lia |].
    split; [|exists c; rewrite last_cons, Hlast; auto].
    cbn [length]. rewrite Nat2Z.inj_succ.
    set (x := (Z.of_nat (String.length text) - Z.of_nat start - Z.of_nat overlap)%Z) in *.
    set (b := (Z.of_nat size - Z.of_nat overlap)%Z) in *.
    set (b' := (b - Z.of_nat (Nat.min lookback (size - overlap - 1)))%Z) in *.
    set (x' := (Z.of_nat (String.length text) - Z.of_nat (stop - overlap)
                - Z.of_nat overlap)%Z) in *.
    assert (Hb : (0 < b)%Z) by (subst b; lia).
    assert (Hb' : (0 < b')%Z) by (subst b' b; lia).
    assert (Hx1 : (x - b <= x')%Z) by (subst x x' b; lia).
    assert (Hx2 : (x' <= x - b')%Z) by (subst x x' b' b; lia).
    rewrite (ceil_div_next x b Hb), (ceil_div_next x b' Hb').
    pose proof (ceil_div_mono (x - b) x' b Hb Hx1).
    pose proof (ceil_div_mono x' (x - b') b' Hb' Hx2).
    lia.
Qed.

Lemma chunk_valid (lookback : nat) (text : string) (chunk_size overlap : Z) :
  (0 < chunk_size)%Z -> (0 <= overlap < chunk_size)%Z ->
  Chunker.chunk lookback text chunk_size overlap
  = Ok (if Chunker.blank text then []
        else Chunker.windows (String.length text) text
               (Z.to_nat chunk_size) (Z.to_nat overlap) lookback 0 0).
Proof.
  intros Hsize Hoverlap. unfold Chunker.chunk.
  replace (0 <? chunk_size)%Z with true by (symmetry; apply Z.ltb_lt; lia).
  replace (0 <=? overlap)%Z with true by (symmetry; apply Z.leb_le; lia).
  replace (overlap <? chunk_size)%Z with true by (symmetry; apply Z.ltb_lt; lia).
  simpl. destruct (Chunker.blank text); reflexivity.
Qed.

Lemma blank_false_nonempty (text : string) :
  Chunker.blank text = false -> 0 < String.length text.
Proof. destruct text; simpl; [discriminate | lia]. Qed.

(** C6, as the model has it: a configuration outside [chunk_size > 0],
    [0 <= overlap < chunk_size] fails with [InvalidConfiguration].  Inside
    it, [chunk] returns: nothing for a blank text; the whole text as one
    chunk when it is not blank and no longer than [chunk_size], also when
    it is no longer than [overlap].  When the text is not blank and longer
    than [overlap], the number of chunks is
    [ceil ((len - overlap) / (chunk_size - overlap))] within the snap
    tolerance: at least that, at most the same quotient with [chunk_size]
    less the look-back, hence exactly that when nothing can be snapped; and
    the last chunk ends where the text ends.  The ranges of consecutive
    chunks overlap by exactly [overlap]; the snap adjustment, at most the
    look-back, is what a chunk may fall short of [chunk_size]. *)
Theorem chunk_overlap_and_count :
  forall (lookback : nat) (text : string) (chunk_size overlap : Z),
    let adjustment :=
      Z.of_nat (Nat.min lookback (Z.to_nat (chunk_size - overlap - 1))) in
    ((chunk_size <= 0 \/ overlap < 0 \/ chunk_size <= overlap)%Z ->
     Chunker.chunk lookback text chunk_size overlap
     = Err Chunker.InvalidConfiguration)
    /\ ((0 < chunk_size)%Z -> (0 <= overlap < chunk_size)%Z ->
        exists chunks : list Chunker.Chunk,
          Chunker.chunk lookback text chunk_size overlap = Ok chunks
          /\ (Chunker.blank text = true -> chunks = [])
          /\ (Chunker.blank text = false ->
              (Z.of_nat (String.length text) <= chunk_size)%Z ->
              chunks = [Chunker.make text 0 0 (String.length text)])
          /\ (Chunker.blank text = false ->
              (overlap < Z.of_nat (String.length text))%Z ->
              (Chunker.ceil_div (Z.of_nat (String.length text) - overlap)
                                (chunk_size - overlap)
               <= Z.of_nat (length chunks)
               <= Chunker.ceil_div (Z.of_nat (String.length text) - overlap)
                                   (chunk_size - overlap - adjustment))%Z
              /\ (lookback = 0 ->
                  Z.of_nat (length chunks)
                  = Chunker.ceil_div (Z.of_nat (String.length text) - overlap)
                                     (chunk_size - overlap))
              /\ exists c : Chunker.Chunk,
                   list.last chunks = Some c /\ Chunker.stop c = String.length text)
          /\ (forall (i : nat) (c d : Chunker.Chunk),
                 chunks !! i = Some c -> chunks !! S i = Some d ->
                 (Chunker.overlap_of c d = overlap
                  /\ chunk_size - adjustment
                     <= Z.of_nat (Chunker.stop c) - Z.of_nat (Chunker.start c)
                     <= chunk_size)%Z)).
Proof.
  intros lookback text chunk_size overlap adjustment. split.
  - intros Hbad. unfold Chunker.chunk.
    destruct (0 <? chunk_size)%Z eqn:E1; [|reflexivity].
    destruct (0 <=? overlap)%Z eqn:E2; [|reflexivity].
    destruct (overlap <? chunk_size)%Z eqn:E3; [|reflexivity].
    apply Z.ltb_lt in E1, E3. apply Z.leb_le in E2. lia.
  - intros Hsize Hoverlap.
    assert (Hadj : Nat.min lookback (Z.to_nat chunk_size - Z.to_nat overlap - 1)
                   = Nat.min lookback (Z.to_nat (chunk_size - overlap - 1))).
    { f_equal. lia. }
    rewrite (chunk_valid lookback text chunk_size overlap Hsize Hoverlap).
    eexists. split; [reflexivity|].
    split; [intros ->; reflexivity|].
    split; [|split].
    + intros Hblank Hshort. rewrite Hblank.
      pose proof (blank_false_nonempty text Hblank) as Hlen.
      destruct (String.length text) as [|n] eqn:En; [lia|].
      cbn [Chunker.windows]. rewrite En.
      replace (S n <=? 0 + Z.to_nat chunk_size) with true
        by (symmetry; apply Nat.leb_le; lia).
      reflexivity.
    + intros Hblank Hlong. rewrite Hblank.
      destruct (windows_count text (Z.to_nat chunk_size) (Z.to_nat overlap) lookback
                  (String.length text) 0 0) as [Hcount Hlast]; [lia | lia | lia |].
      rewrite Hadj in Hcount. fold adjustment in Hcount.
      replace (Z.of_nat (String.length text) - Z.of_nat 0
               - Z.of_nat (Z.to_nat overlap))%Z
        with (Z.of_nat (String.length text) - overlap)%Z in Hcount by lia.
      replace (Z.of_nat (Z.to_nat chunk_size) - Z.of_nat (Z.to_nat overlap))%Z
        with (chunk_size - overlap)%Z in Hcount by lia.
      split; [exact Hcount|]. split; [|exact Hlast].
      intros ->. subst adjustment. simpl in Hcount.
      replace (chunk_size - overlap - Z.of_nat 0)%Z
        with (chunk_size - overlap)%Z in Hcount by lia.
      lia.
    + intros i c d Hc Hd.
      destruct (Chunker.blank text); [discriminate|].
      destruct (windows_adjacent text (Z.to_nat chunk_size) (Z.to_nat overlap)
                  lookback _ 0 0 i c d ltac:(lia) Hc Hd) as (Hstart & Hstop & Hsnap).
      rewrite Hadj in Hsnap. fold adjustment in Hsnap.
      unfold Chunker.overlap_of. subst adjustment. lia.
Qed.

Lemma chunk_overlap_and_count_witness :
  (exists chunks : list Chunker.Chunk,
      Chunker.chunk 4 "The sky is blue. Grass is green." 20 5 = Ok chunks
      /\ (2 <= Z.of_nat (length chunks) <= 3)%Z)
  /\ Chunker.chunk 4 "The sky is blue. Grass is green." 5 5
     = Err Chunker.InvalidConfiguration.
Proof.
  split.
  - destruct (proj2 (chunk_overlap_and_count 4 "The sky is blue. Grass is green." 20 5)
                    ltac:(lia) ltac:(lia))
      as (chunks & Hchunks & _ & _ & Hcount & _).
    exists chunks. split; [exact Hchunks|].
    exact (proj1 (Hcount eq_refl eq_refl)).
  - apply (proj1 (chunk_overlap_and_count 4 "The sky is blue. Grass is green." 5 5)).
    right. right. apply Z.le_refl.
Defined.

(** C6 as worded gives the wrong count for a short text: a text that is
    not blank and no longer than the overlap is one chunk, where the
    formula gives none; no boundary is in sight, so no snapping is
    involved.  A blank text gives no chunk, where the formula gives two. *)
Lemma chunk_count_short_or_blank_text :
  Chunker.chunk 0 "abc" 20 5 = Ok [Chunker.make "abc" 0 0 3]
  /\ Chunker.chunk 8 "abc" 20 5 = Ok [Chunker.make "abc" 0 0 3]
  /\ Chunker.ceil_div (Z.of_nat (String.length "abc") - 5) (20 - 5) = 0%Z
  /\ Chunker.chunk 0 "   " 2 0 = Ok []
  /\ Chunker.ceil_div (Z.of_nat (String.length "   ") - 0) (2 - 0) = 2%Z.
Proof. repeat split. Qed.

(** Snapping at work: with a look-back of four the first window of the
    scenario text breaks after the sentence, at offset 17 and not at 20,
    and the next window starts the overlap before that break. *)
Example chunk_breaks_on_boundary :
  Chunker.chunk 4 "The sky is blue. Grass is green." 20 5
  = Ok [Chunker.make "The sky is blue. Grass is green." 0 0 17;
        Chunker.make "The sky is blue. Grass is green." 1 12 32]
  /\ Chunker.chunk 0 "The sky is blue. Grass is green." 20 5
     = Ok [Chunker.make "The sky is blue. Grass is green." 0 0 20;
           Chunker.make "The sky is blue. Grass is green." 1 15 32].
Proof. split; reflexivity. Qed.

(** * Further properties of the front end *)

(** ** services/api.ts: [uploadDocument] *)



(** ** document-upload.tsx: the rest of [handleUpload] and the other handlers *)

(** X2: the [catch] clause of [handleUpload].  Whenever the promise of
    [uploadDocument] is rejected, the handler shows the message of the
    error thrown, sets the status to [error] and ends the uploading state;
    the selection is left as it stands at that moment (the file, unless
    Remove was clicked while the request was in flight), the file input
    keeps its value, the success message is not touched and
    [onUploadSuccess] is not called.  [uploadDocument] throws nothing but
    [Error]s, so the handler's own ["Upload failed"] is never what is
    shown.  When the request settles before anything else happens, one
    request has left and the file is still selected. *)
Theorem handleUpload_failure_flow :
  forall (P : Type) (post : Request -> PostResult Api.UploadResponse)
         (onUploadSuccess : option (string -> P -> P))
         (st : DocumentUpload.State) (parent : P),
    let failed (selected : option File) (message : string) :=
      ({| DocumentUpload.selectedFile := selected;
          DocumentUpload.uploading := false;
          DocumentUpload.uploadStatus := DocumentUpload.error;
          DocumentUpload.errorMessage := message;
          DocumentUpload.successMessage := DocumentUpload.successMessage st;
          DocumentUpload.isDragging := DocumentUpload.isDragging st;
          DocumentUpload.fileInput := DocumentUpload.fileInput st |},
       parent) in
    (forall reason : Js.Thrown,
        DocumentUpload.handleUpload_finish onUploadSuccess (Js.Rejects reason)
          (st, parent)
        = failed (DocumentUpload.selectedFile st)
                 match reason with
                 | Js.IsError message => message
                 | Js.NotError => "Upload failed"
                 end)
    /\ (forall (file : File) (reason : Js.Thrown),
           DocumentUpload.selectedFile st = Some file ->
           snd (Api.uploadDocument post file) = Js.Rejects reason ->
           exists message,
             reason = Js.IsError message
             /\ DocumentUpload.handleUpload post onUploadSuccess (st, parent)
                = (failed (Some file) message, [HttpPost (Api.uploadRequest file)])
             /\ fst (DocumentUpload.run onUploadSuccess
                       [DocumentUpload.UploadClicked;
                        DocumentUpload.RemoveClicked;
                        DocumentUpload.UploadSettled (Js.Rejects reason)]
                       (st, parent))
                = failed None message).
Proof.
  intros P post cb st parent failed. subst failed. split.
  - intros reason. destruct reason; reflexivity.
  - intros file reason Hsel Hrejects.
    assert (Hmessage : exists message, reason = Js.IsError message).
    { revert Hrejects. unfold Api.uploadDocument. simpl.
      destruct (post (Api.uploadRequest file)); [discriminate | |].
      - unfold Js.Error. destruct (Js.ToString _); intros [= <-]; eexists; reflexivity.
      - intros [= <-]. eexists. reflexivity. }
    destruct Hmessage as [message ->]. exists message.
    split; [reflexivity|]. split.
    + unfold DocumentUpload.handleUpload, DocumentUpload.handleUpload_start.
      rewrite Hsel.
      destruct (Api.uploadDocument post file) as [requests outcome] eqn:Hcall.
      simpl in Hrejects. subst outcome.
      assert (Hrequests : requests = [Api.uploadRequest file]).
      { revert Hcall. unfold Api.uploadDocument. intros [= <- _]. reflexivity. }
      subst requests. rewrite <- Hsel. reflexivity.
    + cbn [DocumentUpload.run DocumentUpload.step].
      unfold DocumentUpload.handleUpload_start. rewrite Hsel. reflexivity.
Qed.

Lemma handleUpload_failure_flow_witness :
  let pdf := {| name := "notes.pdf"; type := "application/pdf"; content := "%PDF" |} in
  let st := DocumentUpload.handleFileSelect pdf DocumentUpload.initial in
  let post : Request -> PostResult Api.UploadResponse :=
    fun _ => RejectedAxios (Some (JObj [("error", JStr "File too large")])) in
  fst (DocumentUpload.handleUpload post (Some App.handleUploadSuccess)
         (st, App.initial))
  = ({| DocumentUpload.selectedFile := Some pdf;
        DocumentUpload.uploading := false;
        DocumentUpload.uploadStatus := DocumentUpload.error;
        DocumentUpload.errorMessage := "File too large";
        DocumentUpload.successMessage := "";
        DocumentUpload.isDragging := false;
        DocumentUpload.fileInput := Some "" |},
     App.initial).
Proof.
  intros pdf st post.
  destruct (proj2 (handleUpload_failure_flow App.State post
                     (Some App.handleUploadSuccess) st App.initial)
                  pdf (Js.IsError "File too large") eq_refl eq_refl)
    as (message & [= <-] & -> & _).
  reflexivity.
Defined.

(** The selected file after an event is the one selected before it or the
    first file the event offered; a file handed to [uploadDocument] is the
    one selected before the click. *)
Lemma step_selected_origin {P : Type} (cb : option (string -> P -> P))
    (ev : DocumentUpload.Event) (st : DocumentUpload.State) (parent : P) (f : File) :
  (DocumentUpload.selectedFile (fst (fst (DocumentUpload.step cb ev (st, parent)))) = Some f ->
   DocumentUpload.selectedFile st = Some f
   \/ exists files, ev = DocumentUpload.FileChanged (f :: files)
                    \/ ev = DocumentUpload.Dropped (f :: files))
  /\ (In f (snd (DocumentUpload.step cb ev (st, parent))) ->
      DocumentUpload.selectedFile st = Some f /\ ev = DocumentUpload.UploadClicked).
Proof.
  destruct ev as [files| | |files| | |outcome]; simpl.
  - split; [|intros []]. destruct files as [|file files]; simpl; [auto|].
    rewrite handleFileSelect_selected.
    destruct (DocumentUpload.includes _ _); [|auto].
    intros [= <-]. right. exists files. auto.
  - split; [auto | intros []].
  - split; [auto | intros []].
  - split; [|intros []]. destruct files as [|file files]; simpl; [auto|].
    rewrite handleFileSelect_selected.
    destruct (DocumentUpload.includes _ _); [|auto].
    intros [= <-]. right. exists files. auto.
  - split; [discriminate | intros []].
  - unfold DocumentUpload.handleUpload_start.
    destruct (DocumentUpload.selectedFile st) as [file|] eqn:E; simpl.
    + split; [rewrite E; auto|]. intros [<- | []]. auto.
    + split; [rewrite E; auto | intros []].
  - split; [|intros []].
    destruct outcome as [response|reason]; simpl; [discriminate | auto].
Qed.

Lemma run_sends_chosen {P : Type} (cb : option (string -> P -> P))
    (evs : list DocumentUpload.Event) :
  forall (stp : DocumentUpload.State * P) (f : File),
    In f (snd (DocumentUpload.run cb evs stp)) ->
    DocumentUpload.selectedFile (fst stp) = Some f
    \/ exists files, In (DocumentUpload.FileChanged (f :: files)) evs
                     \/ In (DocumentUpload.Dropped (f :: files)) evs.
Proof.
  induction evs as [|ev evs IH]; intros [st parent] f; [intros []|].
  cbn [DocumentUpload.run].
  pose proof (step_selected_origin cb ev st parent f) as [Hnext Hsent].
  destruct (DocumentUpload.step cb ev (st, parent)) as [stp1 sent]. simpl in *.
  specialize (IH stp1 f).
  destruct (DocumentUpload.run cb evs stp1) as [stp2 sent']. simpl in *.
  rewrite in_app_iff. intros [H | H].
  - left. apply Hsent, H.
  - destruct (IH H) as [Hsel | (files & [Hin | Hin])].
    + destruct (Hnext Hsel) as [H0 | (files & [-> | ->])]; [auto | right..];
        exists files; auto.
    + right. exists files. auto.
    + right. exists files. auto.
Qed.

(** X3: in any run of the component from its initial state, a file handed
    to [uploadDocument] is a file the user put in: the first file of an
    earlier file-input change or drop. *)
Theorem uploads_only_chosen_files :
  forall (P : Type) (onUploadSuccess : option (string -> P -> P))
         (evs : list DocumentUpload.Event) (parent : P) (f : File),
    In f (snd (DocumentUpload.run onUploadSuccess evs (DocumentUpload.initial, parent))) ->
    exists files,
      In (DocumentUpload.FileChanged (f :: files)) evs
      \/ In (DocumentUpload.Dropped (f :: files)) evs.
Proof.
  intros P cb evs parent f Hin.
  destruct (run_sends_chosen cb evs (DocumentUpload.initial, parent) f Hin)
    as [Hsel | H]; [discriminate | exact H].
Qed.

Lemma uploads_only_chosen_files_witness :
  let pdf := {| name := "notes.pdf"; type := "application/pdf"; content := "%PDF" |} in
  let txt := {| name := "todo.txt"; type := "text/plain"; content := "milk" |} in
  let evs := [DocumentUpload.Dropped [pdf; txt]; DocumentUpload.UploadClicked] in
  exists files,
    In (DocumentUpload.FileChanged (pdf :: files)) evs
    \/ In (DocumentUpload.Dropped (pdf :: files)) evs.
Proof.
  intros pdf txt evs.
  apply (uploads_only_chosen_files unit None evs tt pdf).
  left. reflexivity.
Defined.

(** X4: after a failed upload the status is [error], so neither the Upload
    button nor the Remove row is rendered, only the error banner; the drop
    zone still shows the name of the file if it is still selected (its
    prompt if Remove was clicked meanwhile), and calling the handler again
    would send that file.  Choosing a file of an accepted type brings the
    enabled Upload button back and removes the banner. *)
Theorem failed_upload_needs_reselection :
  forall (P : Type) (onUploadSuccess : option (string -> P -> P))
         (reason : Js.Thrown) (st : DocumentUpload.State) (parent : P),
    let after :=
      fst (DocumentUpload.handleUpload_finish onUploadSuccess (Js.Rejects reason)
             (st, parent)) in
    DocumentUploadView.dropZoneText (DocumentUploadView.render after)
    = match DocumentUpload.selectedFile st with
      | Some file => name file
      | None => "Drag and drop your file here"
      end
    /\ DocumentUploadView.uploadButton (DocumentUploadView.render after) = None
    /\ DocumentUploadView.selectedFileInfo (DocumentUploadView.render after) = None
    /\ DocumentUploadView.errorBanner (DocumentUploadView.render after)
       = Some match reason with
              | Js.IsError message => message
              | Js.NotError => "Upload failed"
              end
    /\ snd (DocumentUpload.handleUpload_start after) = DocumentUpload.selectedFile st
    /\ forall again : File,
         In (type again) DocumentUpload.validTypes ->
         DocumentUploadView.uploadButton
           (DocumentUploadView.render (DocumentUpload.handleFileSelect again after))
         = Some (false, "Upload Document")
         /\ DocumentUploadView.errorBanner
              (DocumentUploadView.render (DocumentUpload.handleFileSelect again after))
            = None.
Proof.
  intros P cb reason st parent after. subst after.
  unfold DocumentUploadView.render, DocumentUpload.handleUpload_start. simpl.
  split; [reflexivity|].
  split; [destruct (DocumentUpload.selectedFile st); reflexivity|].
  split; [destruct (DocumentUpload.selectedFile st); reflexivity|].
  split; [reflexivity|].
  split; [destruct (DocumentUpload.selectedFile st); reflexivity|].
  intros again Hok.
  assert (Hin : In (type again) DocumentUpload.validTypes) by exact Hok.
  apply includes_In in Hin.
  unfold DocumentUpload.handleFileSelect. rewrite Hin. split; reflexivity.
Qed.

Lemma failed_upload_needs_reselection_witness :
  let pdf := {| name := "notes.pdf"; type := "application/pdf"; content := "%PDF" |} in
  let st := DocumentUpload.removeClicked
              (fst (DocumentUpload.handleUpload_start
                      (DocumentUpload.handleFileSelect pdf DocumentUpload.initial))) in
  let after :=
    fst (DocumentUpload.handleUpload_finish (Some App.handleUploadSuccess)
           (Js.Rejects (Js.IsError "File too large")) (st, App.initial)) in
  DocumentUploadView.dropZoneText (DocumentUploadView.render after)
  = "Drag and drop your file here"
  /\ DocumentUploadView.uploadButton (DocumentUploadView.render after) = None
  /\ DocumentUploadView.uploadButton
       (DocumentUploadView.render (DocumentUpload.handleFileSelect pdf after))
     = Some (false, "Upload Document").
Proof.
  intros pdf st after.
  destruct (failed_upload_needs_reselection App.State (Some App.handleUploadSuccess)
              (Js.IsError "File too large") st App.initial)
    as (Hzone & Hbutton & _ & _ & _ & Hagain).
  split; [exact Hzone|]. split; [exact Hbutton|].
  apply (Hagain pdf). left. reflexivity.
Defined.

Lemma run_selected_accepted {P : Type} (cb : option (string -> P -> P))
    (evs : list DocumentUpload.Event) :
  forall stp : DocumentUpload.State * P,
    (forall f, DocumentUpload.selectedFile (fst stp) = Some f ->
               In (type f) DocumentUpload.validTypes) ->
    forall f, DocumentUpload.selectedFile (fst (fst (DocumentUpload.run cb evs stp))) = Some f ->
              In (type f) DocumentUpload.validTypes.
Proof.
  induction evs as [|ev evs IH]; intros stp Hinv; [exact Hinv|].
  cbn [DocumentUpload.run].
  destruct (step_selected_accepted cb ev stp Hinv) as [Hnext _].
  destruct (DocumentUpload.step cb ev stp) as [stp1 sent]. simpl in Hnext.
  specialize (IH stp1 Hnext).
  destruct (DocumentUpload.run cb evs stp1) as [stp2 sent']. exact IH.
Qed.

(** X5: the Upload button and the Remove row are rendered together or not
    at all, and never together with a banner; the two banners never show at
    once.  In any run from the initial state, a rendered Upload button
    stands for a selected file of an accepted type. *)
Theorem upload_controls_consistent :
  (forall st : DocumentUpload.State,
      let view := DocumentUploadView.render st in
      (DocumentUploadView.uploadButton view = None
       <-> DocumentUploadView.selectedFileInfo view = None)
      /\ (DocumentUploadView.uploadButton view <> None ->
          DocumentUploadView.successBanner view = None
          /\ DocumentUploadView.errorBanner view = None)
      /\ (DocumentUploadView.successBanner view <> None ->
          DocumentUploadView.errorBanner view = None))
  /\ forall (P : Type) (onUploadSuccess : option (string -> P -> P))
            (evs : list DocumentUpload.Event) (parent : P),
       let st := fst (fst (DocumentUpload.run onUploadSuccess evs
                             (DocumentUpload.initial, parent))) in
       DocumentUploadView.uploadButton (DocumentUploadView.render st) <> None ->
       exists file,
         DocumentUpload.selectedFile st = Some file
         /\ In (type file) DocumentUpload.validTypes.
Proof.
  split.
  - intros st view. subst view. unfold DocumentUploadView.render. simpl.
    destruct (DocumentUpload.selectedFile st), (DocumentUpload.uploadStatus st);
      repeat split; try congruence; try discriminate.
  - intros P cb evs parent st Hbutton.
    pose proof (run_selected_accepted cb evs (DocumentUpload.initial, parent)) as Hacc.
    fold st in Hacc.
    destruct (DocumentUpload.selectedFile st) as [file|] eqn:E.
    + exists file. split; [reflexivity|]. apply Hacc; [discriminate | reflexivity].
    + exfalso. apply Hbutton. unfold DocumentUploadView.render. simpl.
      rewrite E. reflexivity.
Qed.

Lemma upload_controls_consistent_witness :
  let pdf := {| name := "notes.pdf"; type := "application/pdf"; content := "%PDF" |} in
  let st := fst (fst (DocumentUpload.run (P := unit) None
                        [DocumentUpload.Dropped [pdf]]
                        (DocumentUpload.initial, tt))) in
  exists file,
    DocumentUpload.selectedFile st = Some file
    /\ In (type file) DocumentUpload.validTypes.
Proof.
  intros pdf st.
  apply (proj2 upload_controls_consistent unit None
               [DocumentUpload.Dropped [pdf]] tt).
  discriminate.
Defined.

(** X6: a drop is a file-input change with the dragging flag cleared, and
    the flag is cleared even when the file is refused.  Both look at the
    first file only: an empty list changes nothing else, and when the first
    file is of a refused type the selection stays as it was and the error
    shows, whatever files follow it. *)
Theorem drop_is_change_with_dragging_cleared :
  forall (files : list File) (st : DocumentUpload.State),
    fst (DocumentUpload.handleDrop files st)
    = DocumentUpload.setIsDragging false (DocumentUpload.handleFileChange files st)
    /\ DocumentUpload.isDragging (fst (DocumentUpload.handleDrop files st)) = false
    /\ DocumentUpload.handleFileChange [] st = st
    /\ forall (file : File) (others : list File),
         ~ In (type file) DocumentUpload.validTypes ->
         DocumentUpload.selectedFile (fst (DocumentUpload.handleDrop (file :: others) st))
         = DocumentUpload.selectedFile st
         /\ DocumentUploadView.errorBanner
              (DocumentUploadView.render
                 (fst (DocumentUpload.handleDrop (file :: others) st)))
            = Some "Please upload a PDF or TXT file"
         /\ DocumentUploadView.uploadButton
              (DocumentUploadView.render
                 (fst (DocumentUpload.handleDrop (file :: others) st)))
            = None.
Proof.
  intros files st.
  split; [|split; [|split]].
  - destruct files as [|file files]; simpl; [reflexivity|].
    unfold DocumentUpload.handleFileSelect.
    destruct (negb _); reflexivity.
  - destruct files as [|file files]; simpl; [reflexivity|].
    unfold DocumentUpload.handleFileSelect.
    destruct (negb _); reflexivity.
  - reflexivity.
  - intros file others Hno.
    assert (E : DocumentUpload.includes DocumentUpload.validTypes (type file) = false).
    { destruct (DocumentUpload.includes _ _) eqn:E; [|reflexivity].
      apply includes_In in E. contradiction. }
    unfold DocumentUpload.handleDrop, DocumentUpload.handleFileSelect.
    rewrite E. simpl. unfold DocumentUploadView.render. simpl.
    split; [reflexivity|]. split; [reflexivity|].
    destruct (DocumentUpload.selectedFile st); reflexivity.
Qed.

Lemma drop_is_change_with_dragging_cleared_witness :
  let png := {| name := "scan.png"; type := "image/png"; content := "" |} in
  let pdf := {| name := "notes.pdf"; type := "application/pdf"; content := "%PDF" |} in
  DocumentUpload.selectedFile
    (fst (DocumentUpload.handleDrop [png; pdf] DocumentUpload.initial))
  = None.
Proof.
  intros png pdf.
  refine (proj1 (proj2 (proj2 (proj2 (drop_is_change_with_dragging_cleared
                                         [] DocumentUpload.initial)))
                       png [pdf] _)).
  simpl. intros [H | [H | []]]; discriminate.
Defined.

(** X7: through the rendered controls no second upload starts while one is
    in flight.  Along every run in which Upload is clicked only when the
    button is rendered and not disabled, and a settlement comes only for a
    request in flight, the number of uploads in flight is one while
    [uploading] is set and none otherwise. *)
Theorem one_upload_in_flight :
  forall (P : Type) (onUploadSuccess : option (string -> P -> P))
         (evs : list DocumentUpload.Event)
         (st : DocumentUpload.State) (parent : P) (pending : nat)
         (st' : DocumentUpload.State) (parent' : P) (pending' : nat),
    pending = (if DocumentUpload.uploading st then 1 else 0) ->
    DocumentUploadView.play onUploadSuccess evs (st, parent) pending
    = Some ((st', parent'), pending') ->
    pending' = (if DocumentUpload.uploading st' then 1 else 0)
    /\ pending' <= 1
    /\ DocumentUploadView.inputDisabled (DocumentUploadView.render st')
       = (0 <? pending').
Proof.
  intros P cb evs.
  assert (Hinv : forall st parent pending st' parent' pending',
             pending = (if DocumentUpload.uploading st then 1 else 0) ->
             DocumentUploadView.play cb evs (st, parent) pending
             = Some ((st', parent'), pending') ->
             pending' = (if DocumentUpload.uploading st' then 1 else 0)).
  { induction evs as [|ev evs IH]; intros st parent pending st' parent' pending' Hp.
    - simpl. intros [= <- <- <-]. exact Hp.
    - cbn [DocumentUploadView.play fst].
      destruct (DocumentUploadView.offered st pending ev) eqn:Hoff; [|discriminate].
      destruct (DocumentUpload.step cb ev (st, parent)) as [[st1 parent1] sent] eqn:Hstep.
      apply IH.
      assert (Hsel : forall file s,
                 DocumentUpload.uploading (DocumentUpload.handleFileSelect file s)
                 = DocumentUpload.uploading s).
      { intros file s. unfold DocumentUpload.handleFileSelect.
        destruct (negb _); reflexivity. }
      destruct ev as [files| | |files| | |outcome]; simpl in Hstep, Hoff.
      + injection Hstep as <- <- <-. simpl.
        destruct files as [|file files]; simpl; [lia|]. rewrite Hsel. lia.
      + injection Hstep as <- <- <-. simpl. lia.
      + injection Hstep as <- <- <-. simpl. lia.
      + injection Hstep as <- <- <-. simpl.
        destruct files as [|file files]; simpl; [lia|]. rewrite Hsel. simpl. lia.
      + injection Hstep as <- <- <-. simpl. lia.
      + unfold DocumentUpload.handleUpload_start in Hstep.
        destruct (DocumentUpload.selectedFile st) as [file|]; [|discriminate].
        destruct (DocumentUpload.uploadStatus st); try discriminate.
        destruct (DocumentUpload.uploading st) eqn:Hup; [discriminate|].
        injection Hstep as <- <- <-. simpl. lia.
      + apply Nat.ltb_lt in Hoff.
        destruct outcome as [response|reason]; injection Hstep as <- <- <-; simpl;
          destruct (DocumentUpload.uploading st); lia. }
  intros st parent pending st' parent' pending' Hp Hplay.
  pose proof (Hinv _ _ _ _ _ _ Hp Hplay) as H.
  split; [exact H|]. unfold DocumentUploadView.render. simpl.
  rewrite H. destruct (DocumentUpload.uploading st'); split; auto.
Qed.

Lemma one_upload_in_flight_witness :
  let pdf := {| name := "notes.pdf"; type := "application/pdf"; content := "%PDF" |} in
  exists st' pending',
    DocumentUploadView.play (Some App.handleUploadSuccess)
      [DocumentUpload.Dropped [pdf]; DocumentUpload.UploadClicked;
       DocumentUpload.RemoveClicked]
      (DocumentUpload.initial, App.initial) 0
    = Some ((st', App.initial), pending')
    /\ pending' = 1
    /\ DocumentUpload.uploading st' = true.
Proof.
  intros pdf. eexists _, _. split; [reflexivity|].
  pose proof (one_upload_in_flight App.State (Some App.handleUploadSuccess)
                [DocumentUpload.Dropped [pdf]; DocumentUpload.UploadClicked;
                 DocumentUpload.RemoveClicked]
                DocumentUpload.initial App.initial 0 _ _ _ eq_refl eq_refl)
    as (Hpending & _ & _).
  split; [exact Hpending | reflexivity].
Defined.

(** ** question-answer.tsx: the form and its rendering *)

(** X8: the submit button is disabled exactly when [handleSubmit] would
    return at its guard, that is, when the input is white space only or a
    request is in flight.  When it is enabled, a submission asks the input
    as typed (not trimmed), empties the input and sets the loading flag, so
    that the spinner shows and both the input and the button are
    disabled. *)
Theorem submit_button_matches_guard :
  forall (st : QuestionAnswer.State) (now date : Z),
    (QuestionAnswerView.submitDisabled (QuestionAnswerView.render st) = true
     <-> snd (QuestionAnswer.handleSubmit_start now date st) = None)
    /\ (QuestionAnswerView.submitDisabled (QuestionAnswerView.render st) = true
        <-> Js.whitespaceOnly (QuestionAnswer.inputValue st) = true
            \/ QuestionAnswer.isLoading st = true)
    /\ (QuestionAnswerView.submitDisabled (QuestionAnswerView.render st) = false ->
        let after := fst (fst (QuestionAnswer.handleSubmit_start now date st)) in
        snd (QuestionAnswer.handleSubmit_start now date st)
        = Some (QuestionAnswer.inputValue st)
        /\ QuestionAnswer.inputValue after = ""
        /\ QuestionAnswerView.spinner (QuestionAnswerView.render after) = true
        /\ QuestionAnswerView.inputDisabled (QuestionAnswerView.render after) = true
        /\ QuestionAnswerView.submitDisabled (QuestionAnswerView.render after) = true).
Proof.
  intros st now date.
  unfold QuestionAnswerView.render, QuestionAnswer.handleSubmit_start. simpl.
  split; [|split].
  - destruct (_ || _); simpl; split; congruence.
  - split.
    + intros [H | H]%orb_true_iff; [left | right; exact H].
      apply trim_empty_iff, String.eqb_eq, H.
    + apply guard_refuses.
  - intros ->. simpl. repeat split.
Qed.

Lemma submit_button_matches_guard_witness :
  let st := {| QuestionAnswer.messages := [];
               QuestionAnswer.inputValue := "  What is Endee? ";
               QuestionAnswer.isLoading := false |} in
  snd (QuestionAnswer.handleSubmit_start 1000 1000 st) = Some "  What is Endee? ".
Proof.
  intros st.
  exact (proj1 (proj2 (proj2 (submit_button_matches_guard st 1000 1000)) eq_refl)).
Defined.

(** X9: never two questions in flight.  Along every run in which a
    settlement comes only for a request in flight, the number of questions
    in flight is one while [isLoading] is set and none otherwise, so the
    spinner shows exactly while an answer is awaited. *)
Theorem one_question_in_flight :
  forall (P : Type) (onSourcesUpdate : option (list Api.Source -> P -> P))
         (evs : list QuestionAnswer.Event)
         (st : QuestionAnswer.State) (parent : P) (pending : nat)
         (st' : QuestionAnswer.State) (parent' : P) (pending' : nat),
    pending = (if QuestionAnswer.isLoading st then 1 else 0) ->
    QuestionAnswerView.play onSourcesUpdate evs (st, parent) pending
    = Some ((st', parent'), pending') ->
    pending' = (if QuestionAnswer.isLoading st' then 1 else 0)
    /\ pending' <= 1
    /\ QuestionAnswerView.spinner (QuestionAnswerView.render st') = (0 <? pending').
Proof.
  intros P cb evs.
  assert (Hinv : forall st parent pending st' parent' pending',
             pending = (if QuestionAnswer.isLoading st then 1 else 0) ->
             QuestionAnswerView.play cb evs (st, parent) pending
             = Some ((st', parent'), pending') ->
             pending' = (if QuestionAnswer.isLoading st' then 1 else 0)).
  { induction evs as [|ev evs IH]; intros st parent pending st' parent' pending' Hp.
    - simpl. intros [= <- <- <-]. exact Hp.
    - cbn [QuestionAnswerView.play].
      destruct (QuestionAnswerView.offered pending ev) eqn:Hoff; [|discriminate].
      destruct (QuestionAnswer.step cb ev (st, parent)) as [[st1 parent1] asked] eqn:Hstep.
      apply IH.
      destruct ev as [value|now date|now date outcome]; simpl in Hstep, Hoff.
      + injection Hstep as <- <- <-. simpl. lia.
      + unfold QuestionAnswer.handleSubmit_start in Hstep.
        destruct (String.eqb _ _) eqn:Hblank; simpl in Hstep.
        * injection Hstep as <- <- <-. simpl. lia.
        * destruct (QuestionAnswer.isLoading st) eqn:Hload;
            injection Hstep as <- <- <-; simpl; [rewrite Hload|]; lia.
      + apply Nat.ltb_lt in Hoff.
        destruct outcome as [response|reason]; injection Hstep as <- <- <-; simpl;
          destruct (QuestionAnswer.isLoading st); lia. }
  intros st parent pending st' parent' pending' Hp Hplay.
  pose proof (Hinv _ _ _ _ _ _ Hp Hplay) as H.
  split; [exact H|]. unfold QuestionAnswerView.render. simpl.
  rewrite H. destruct (QuestionAnswer.isLoading st'); split; auto.
Qed.

Lemma one_question_in_flight_witness :
  let st := {| QuestionAnswer.messages := [];
               QuestionAnswer.inputValue := "What is Endee?";
               QuestionAnswer.isLoading := false |} in
  exists st' pending',
    QuestionAnswerView.play (Some App.handleSourcesUpdate)
      [QuestionAnswer.Submitted 1000 1000;
       QuestionAnswer.InputChanged "And Qdrant?";
       QuestionAnswer.Submitted 1100 1100]
      (st, App.initial) 0
    = Some ((st', App.initial), pending')
    /\ pending' = 1.
Proof.
  intros st. eexists _, _. split; [reflexivity|].
  exact (proj1 (one_question_in_flight App.State (Some App.handleSourcesUpdate)
                  [QuestionAnswer.Submitted 1000 1000;
                   QuestionAnswer.InputChanged "And Qdrant?";
                   QuestionAnswer.Submitted 1100 1100]
                  st App.initial 0 _ _ _ eq_refl eq_refl)).
Defined.

(** X10: the two messages of a submission get the ids [Date.now()] and
    [Date.now() + 1], read before and after the request.  The two ids
    differ unless the second reading is exactly one millisecond before the
    first; in particular they differ whenever the clock has not gone
    back. *)
Theorem submission_message_ids :
  forall (P : Type) (post : Request -> PostResult Api.AskResponse)
         (onSourcesUpdate : option (list Api.Source -> P -> P))
         (now date now' date' : Z) (st : QuestionAnswer.State) (parent : P),
    Js.whitespaceOnly (QuestionAnswer.inputValue st) = false ->
    QuestionAnswer.isLoading st = false ->
    let added :=
      drop (length (QuestionAnswer.messages st))
           (QuestionAnswer.messages
              (fst (fst (QuestionAnswer.handleSubmit post onSourcesUpdate
                           now date now' date' (st, parent))))) in
    QuestionAnswer.id <$> added = [pretty now; pretty (now' + 1)%Z]
    /\ (NoDup (QuestionAnswer.id <$> added) <-> now <> (now' + 1)%Z)
    /\ ((now <= now')%Z -> NoDup (QuestionAnswer.id <$> added)).
Proof.
  intros P post cb now date now' date' st parent Hinput Hidle added.
  assert (Hids : QuestionAnswer.id <$> added = [pretty now; pretty (now' + 1)%Z]).
  { subst added.
    unfold QuestionAnswer.handleSubmit, QuestionAnswer.handleSubmit_start.
    rewrite (guard_accepts st Hinput Hidle). simpl.
    destruct (post (Api.askRequest (QuestionAnswer.inputValue st))); simpl;
      rewrite <- app_assoc, drop_app_length; reflexivity. }
  assert (Hiff : NoDup (QuestionAnswer.id <$> added) <-> now <> (now' + 1)%Z).
  { rewrite Hids. split.
    - intros Hnd ->. inversion Hnd as [|? ? Hnotin _]; subst.
      apply Hnotin. left.
    - intros Hne. constructor; [|constructor; [intros H; inversion H | constructor]].
      intros Hin. apply list_elem_of_singleton in Hin.
      apply Hne. apply (inj pretty). exact Hin. }
  split; [exact Hids|]. split; [exact Hiff|].
  intros Hle. apply Hiff. lia.
Qed.

Lemma submission_message_ids_witness :
  let st := {| QuestionAnswer.messages := [];
               QuestionAnswer.inputValue := "What is Endee?";
               QuestionAnswer.isLoading := false |} in
  QuestionAnswer.id
    <$> QuestionAnswer.messages
          (fst (fst (QuestionAnswer.handleSubmit
                       (fun _ => RejectedOther) (Some App.handleSourcesUpdate)
                       1000 1000 1000 1000 (st, App.initial))))
  = ["1000"; "1001"].
Proof.
  intros st.
  exact (proj1 (submission_message_ids App.State (fun _ => RejectedOther)
                  (Some App.handleSourcesUpdate) 1000 1000 1000 1000
                  st App.initial eq_refl eq_refl)).
Defined.

Lemma step_user_messages_plain {P : Type} (cb : option (list Api.Source -> P -> P))
    (ev : QuestionAnswer.Event) (stp : QuestionAnswer.State * P) :
  Forall (fun m => QuestionAnswer.type m = QuestionAnswer.user ->
                   QuestionAnswer.sources m = None)
         (QuestionAnswer.messages (fst stp)) ->
  Forall (fun m => QuestionAnswer.type m = QuestionAnswer.user ->
                   QuestionAnswer.sources m = None)
         (QuestionAnswer.messages (fst (fst (QuestionAnswer.step cb ev stp)))).
Proof.
  destruct stp as [st parent]. intros Hinv.
  destruct ev as [value|now date|now date outcome]; simpl.
  - exact Hinv.
  - unfold QuestionAnswer.handleSubmit_start.
    destruct (_ || _); simpl; [exact Hinv|].
    apply Forall_app. split; [exact Hinv|]. repeat constructor.
  - destruct outcome as [response|reason]; simpl;
      (apply Forall_app; split; [exact Hinv|]);
      constructor; [discriminate | constructor | discriminate | constructor].
Qed.

(** X11: in any run from the initial state, a bubble with a "Sources: n"
    line belongs to an assistant message whose source list is not empty;
    the user's own messages and the error messages never carry one. *)
Theorem badges_only_on_grounded_answers :
  forall (P : Type) (onSourcesUpdate : option (list Api.Source -> P -> P))
         (evs : list QuestionAnswer.Event) (parent : P) (m : QuestionAnswer.Message),
    m ∈ QuestionAnswer.messages
          (fst (fst (QuestionAnswer.run onSourcesUpdate evs
                       (QuestionAnswer.initial, parent)))) ->
    QuestionAnswerView.badge (QuestionAnswerView.bubble m) <> None ->
    QuestionAnswer.type m = QuestionAnswer.assistant
    /\ exists sources,
         QuestionAnswer.sources m = Some sources
         /\ sources <> []
         /\ QuestionAnswerView.badge (QuestionAnswerView.bubble m)
            = Some ("Sources: " +:+ pretty (length sources)).
Proof.
  intros P cb evs parent.
  assert (Hinv : forall stp : QuestionAnswer.State * P,
             Forall (fun m => QuestionAnswer.type m = QuestionAnswer.user ->
                              QuestionAnswer.sources m = None)
                    (QuestionAnswer.messages (fst stp)) ->
             Forall (fun m => QuestionAnswer.type m = QuestionAnswer.user ->
                              QuestionAnswer.sources m = None)
                    (QuestionAnswer.messages
                       (fst (fst (QuestionAnswer.run cb evs stp))))).
  { induction evs as [|ev evs IH]; intros stp H; [exact H|].
    cbn [QuestionAnswer.run].
    pose proof (step_user_messages_plain cb ev stp H) as Hstep.
    destruct (QuestionAnswer.step cb ev stp) as [stp1 asked]. simpl in Hstep.
    specialize (IH stp1 Hstep).
    destruct (QuestionAnswer.run cb evs stp1) as [stp2 asked']. exact IH. }
  specialize (Hinv (QuestionAnswer.initial, parent) (Forall_nil _)).
  intros m Hm Hbadge.
  rewrite list.Forall_forall in Hinv. specialize (Hinv m Hm).
  unfold QuestionAnswerView.bubble in *. simpl in *.
  destruct (QuestionAnswer.sources m) as [sources|] eqn:Hsources; [|congruence].
  split.
  - destruct (QuestionAnswer.type m); [|reflexivity].
    specialize (Hinv eq_refl). discriminate.
  - exists sources. split; [reflexivity|].
    destruct sources as [|s sources]; [exfalso; apply Hbadge; reflexivity|].
    split; [discriminate | reflexivity].
Qed.

Lemma badges_only_on_grounded_answers_witness :
  let source := {| Api.text := "Endee stores vectors."; Api.metadata := None |} in
  let reply :=
    {| QuestionAnswer.id := "1201";
       QuestionAnswer.type := QuestionAnswer.assistant;
       QuestionAnswer.content := "A vector database.";
       QuestionAnswer.sources := Some [source];
       QuestionAnswer.timestamp := 1200 |} in
  QuestionAnswerView.badge (QuestionAnswerView.bubble reply) = Some "Sources: 1".
Proof.
  intros source reply.
  destruct (badges_only_on_grounded_answers App.State (Some App.handleSourcesUpdate)
              [QuestionAnswer.InputChanged "What is Endee?";
               QuestionAnswer.Submitted 1000 1000;
               QuestionAnswer.AskSettled 1200 1200
                 (Js.Resolves {| Api.answer := "A vector database.";
                                 Api.sources := Some [source] |})]
              App.initial reply)
    as (_ & sources & Hsources & _ & Hbadge).
  - simpl. right. left.
  - discriminate.
  - injection Hsources as <-. exact Hbadge.
Defined.

(** X12: the conversation in the view is never rewritten.  The welcome
    text shows exactly while there is no message; once there are messages,
    every later state renders their bubbles first, unchanged and in order,
    followed by whatever came after. *)
Theorem bubbles_are_kept :
  (forall st : QuestionAnswer.State,
      QuestionAnswerView.body (QuestionAnswerView.render st)
      = QuestionAnswerView.Welcome "Start a conversation"
      <-> QuestionAnswer.messages st = [])
  /\ forall (P : Type) (onSourcesUpdate : option (list Api.Source -> P -> P))
            (evs : list QuestionAnswer.Event) (stp : QuestionAnswer.State * P),
       QuestionAnswer.messages (fst stp) <> [] ->
       exists later,
         QuestionAnswerView.body
           (QuestionAnswerView.render
              (fst (fst (QuestionAnswer.run onSourcesUpdate evs stp))))
         = QuestionAnswerView.Bubbles
             ((QuestionAnswerView.bubble <$> QuestionAnswer.messages (fst stp))
                ++ later).
Proof.
  split.
  - intros st. unfold QuestionAnswerView.render. simpl.
    destruct (QuestionAnswer.messages st); simpl; split; congruence.
  - intros P cb evs stp Hne.
    destruct (run_appends cb evs stp) as [added Hadded].
    exists (QuestionAnswerView.bubble <$> added).
    unfold QuestionAnswerView.render. simpl. rewrite Hadded.
    destruct (QuestionAnswer.messages (fst stp)) as [|m ms]; [congruence|].
    simpl. rewrite fmap_app. reflexivity.
Qed.

Lemma bubbles_are_kept_witness :
  let first :=
    {| QuestionAnswer.id := "1000"; QuestionAnswer.type := QuestionAnswer.user;
       QuestionAnswer.content := "What is Endee?";
       QuestionAnswer.sources := None; QuestionAnswer.timestamp := 1000 |} in
  let st := {| QuestionAnswer.messages := [first];
               QuestionAnswer.inputValue := "";
               QuestionAnswer.isLoading := true |} in
  exists later,
    QuestionAnswerView.body
      (QuestionAnswerView.render
         (fst (fst (QuestionAnswer.run (Some App.handleSourcesUpdate)
                      [QuestionAnswer.AskSettled 1200 1200 (Js.Rejects Js.NotError)]
                      (st, App.initial)))))
    = QuestionAnswerView.Bubbles (QuestionAnswerView.bubble first :: later).
Proof.
  intros first st.
  apply (proj2 bubbles_are_kept App.State (Some App.handleSourcesUpdate)
               [QuestionAnswer.AskSettled 1200 1200 (Js.Rejects Js.NotError)]
               (st, App.initial)).
  discriminate.
Defined.

(** ** App.tsx and sources-panel.tsx *)

Lemma app_step_currentSources (ev : App.Event) (page : App.Page) :
  App.currentSources (App.app (App.step ev page))
  = match ev with
    | App.InQuestion (QuestionAnswer.AskSettled _ _ (Js.Resolves response)) =>
        default (App.currentSources (App.app page)) (Api.sources response)
    | _ => App.currentSources (App.app page)
    end.
Proof.
  destruct page as [a du qa].
  destruct ev as [ev|ev]; simpl.
  - destruct ev as [files| | |files| | |outcome]; simpl; try reflexivity.
    + destruct (DocumentUpload.handleUpload_start du) as [du' sent]. reflexivity.
    + destruct outcome as [response|reason]; reflexivity.
  - destruct ev as [value|now date|now date outcome]; simpl; [reflexivity | |].
    + destruct (QuestionAnswer.handleSubmit_start now date qa) as [[qa' effects] asked].
      reflexivity.
    + destruct outcome as [response|reason]; simpl; [|reflexivity].
      destruct (Api.sources response); reflexivity.
Qed.

(** X13: [currentSources] changes only when an answer that carries
    [sources] settles.  A failed question, an answer without [sources],
    typing, submitting and every upload event leave it as it was, so the
    sources of the last grounded answer stay on the page; after a run it
    holds the sources of the last such answer, or what it held before when
    there was none. *)
Theorem current_sources_follow_last_answer :
  let carried (ev : App.Event) : option (list Api.Source) :=
    match ev with
    | App.InQuestion (QuestionAnswer.AskSettled _ _ (Js.Resolves response)) =>
        Api.sources response
    | _ => None
    end in
  (forall (ev : App.Event) (page : App.Page),
      App.currentSources (App.app (App.step ev page))
      = default (App.currentSources (App.app page)) (carried ev))
  /\ forall (evs : list App.Event) (page : App.Page),
       App.currentSources (App.app (App.run evs page))
       = default (App.currentSources (App.app page))
                 (list.last (omap carried evs)).
Proof.
  intros carried.
  assert (Hstep : forall ev page,
             App.currentSources (App.app (App.step ev page))
             = default (App.currentSources (App.app page)) (carried ev)).
  { intros ev page. rewrite app_step_currentSources. subst carried. simpl.
    destruct ev as [ev|[value|now date|now date [response|reason]]]; reflexivity. }
  split; [exact Hstep|].
  unfold App.run.
  induction evs as [|ev evs IH]; intros page; simpl; [reflexivity|].
  rewrite IH, Hstep. clear IH.
  destruct (carried ev) as [sources|]; simpl; [|reflexivity].
  rewrite last_cons. unfold omap.
  destruct (list.last (list_omap _ _ carried evs)); reflexivity.
Qed.

(** X14: [uploadedFiles] is the list of the filenames the successful
    uploads returned, in the order they settled, repeats included; from a
    fresh page the header counter is absent while there is none and
    otherwise reads "n document(s) uploaded" with the plural for every
    count but one. *)
Theorem uploaded_files_list_successful_uploads :
  let returned (ev : App.Event) : option string :=
    match ev with
    | App.InUpload (DocumentUpload.UploadSettled (Js.Resolves response)) =>
        Some (Api.filename response)
    | _ => None
    end in
  (forall (evs : list App.Event) (page : App.Page),
      App.uploadedFiles (App.app (App.run evs page))
      = App.uploadedFiles (App.app page) ++ omap returned evs)
  /\ forall evs : list App.Event,
       App.counter (App.render (App.app (App.run evs App.start)))
       = match length (omap returned evs) with
         | 0 => None
         | 1 => Some "1 document uploaded"
         | n => Some (pretty n +:+ " documents uploaded")
         end.
Proof.
  intros returned.
  assert (Hrun : forall evs page,
             App.uploadedFiles (App.app (App.run evs page))
             = App.uploadedFiles (App.app page) ++ omap returned evs).
  { unfold App.run.
    induction evs as [|ev evs IH]; intros page; simpl; [rewrite app_nil_r; reflexivity|].
    rewrite IH, app_step_uploadedFiles, <- app_assoc. f_equal.
    subst returned. simpl.
    destruct ev as [[files| | |files| | |[response|reason]]|ev]; reflexivity. }
  split; [exact Hrun|].
  intros evs. unfold App.render. simpl. rewrite Hrun. simpl.
  destruct (omap returned evs) as [|a [|b names]]; try reflexivity.
Qed.

(** X15: [App] renders the sources section exactly when [currentSources]
    is not empty, so the panel inside it always lists items, one per
    source, and its placeholder branch is never what the page shows. *)
Theorem app_sources_section_lists_items :
  forall st : App.State,
    (App.sourcesSection (App.render st) = None <-> App.currentSources st = [])
    /\ forall view : SourcesPanel.View,
         App.sourcesSection (App.render st) = Some view ->
         exists items,
           SourcesPanel.body view = SourcesPanel.Items items
           /\ length items = length (App.currentSources st)
           /\ App.currentSources st <> [].
Proof.
  intros st. unfold App.render. simpl.
  destruct (App.currentSources st) as [|source sources] eqn:E; simpl.
  - split; [split; reflexivity | discriminate].
  - split; [split; discriminate|].
    intros view [= <-]. eexists. split; [reflexivity|].
    split; [|discriminate]. simpl. rewrite length_imap. reflexivity.
Qed.

Lemma app_sources_section_lists_items_witness :
  let source := {| Api.text := "Endee stores vectors."; Api.metadata := None |} in
  let st := {| App.currentSources := [source; source]; App.uploadedFiles := [] |} in
  exists items,
    SourcesPanel.body (SourcesPanel.SourcesPanel [source; source])
    = SourcesPanel.Items items
    /\ length items = 2.
Proof.
  intros source st.
  destruct (proj2 (app_sources_section_lists_items st) _ eq_refl)
    as (items & Hbody & Hlen & _).
  exists items. split; [exact Hbody | exact Hlen].
Defined.

(** The page with the item states of a fresh mount is the page as [render]
    gives it, and whatever the item states, the sources section is there
    exactly when there are sources and lists one item per source. *)
Lemma rendered_sources_section (isExpanded : list bool) (st : App.State) :
  App.rendered (SourcesPanel.mount (App.currentSources st)) st = App.render st
  /\ (App.sourcesSection (App.rendered isExpanded st) = None
      <-> App.currentSources st = [])
  /\ forall view : SourcesPanel.View,
       App.sourcesSection (App.rendered isExpanded st) = Some view ->
       exists items,
         SourcesPanel.body view = SourcesPanel.Items items
         /\ length items = length (App.currentSources st).
Proof.
  unfold App.rendered, App.render. simpl.
  destruct (App.currentSources st) as [|source sources] eqn:E.
  - split; [reflexivity|]. split; [split; reflexivity | discriminate].
  - split.
    + f_equal. cbn [length Nat.ltb Nat.leb]. f_equal.
      unfold SourcesPanel.mounted, SourcesPanel.SourcesPanel. f_equal.
      cbn [length Nat.eqb]. f_equal. apply imap_ext. intros k s Hk.
      unfold SourcesPanel.mount.
      rewrite lookup_replicate_2 by (eapply lookup_lt_Some, Hk). reflexivity.
    + split; [split; discriminate|].
      intros view [= <-]. eexists. split; [reflexivity|].
      rewrite length_imap. reflexivity.
Qed.



(** X17: what the user sees around an upload.  Right after the click the
    button is still rendered, disabled and captioned "Uploading...", the
    file input is disabled and no banner shows, even if an error banner
    stood before the click.  The Remove row is still there and can be
    clicked: after that the button and the row are gone and the drop zone
    shows its prompt, while the input stays disabled until the request
    settles.  When the upload has succeeded, whatever happened meanwhile,
    the button and the Remove row are gone, the drop zone shows its prompt,
    the input is enabled and the success banner carries the server's
    message, or the default text when that message is empty. *)
Theorem upload_progress_view :
  forall (P : Type) (onUploadSuccess : option (string -> P -> P))
         (file : File) (st : DocumentUpload.State) (parent : P)
         (response : Api.UploadResponse),
    DocumentUpload.selectedFile st = Some file ->
    let during := fst (DocumentUpload.handleUpload_start st) in
    DocumentUploadView.render during
    = {| DocumentUploadView.highlighted := DocumentUpload.isDragging st;
         DocumentUploadView.inputDisabled := true;
         DocumentUploadView.dropZoneText := name file;
         DocumentUploadView.selectedFileInfo := Some (name file);
         DocumentUploadView.uploadButton := Some (true, "Uploading...");
         DocumentUploadView.successBanner := None;
         DocumentUploadView.errorBanner := None |}
    /\ DocumentUploadView.render (DocumentUpload.removeClicked during)
       = {| DocumentUploadView.highlighted := DocumentUpload.isDragging st;
            DocumentUploadView.inputDisabled := true;
            DocumentUploadView.dropZoneText := "Drag and drop your file here";
            DocumentUploadView.selectedFileInfo := None;
            DocumentUploadView.uploadButton := None;
            DocumentUploadView.successBanner := None;
            DocumentUploadView.errorBanner := None |}
    /\ forall settled : DocumentUpload.State,
         DocumentUploadView.render
           (fst (DocumentUpload.handleUpload_finish onUploadSuccess
                   (Js.Resolves response) (settled, parent)))
         = {| DocumentUploadView.highlighted := DocumentUpload.isDragging settled;
              DocumentUploadView.inputDisabled := false;
              DocumentUploadView.dropZoneText := "Drag and drop your file here";
              DocumentUploadView.selectedFileInfo := None;
              DocumentUploadView.uploadButton := None;
              DocumentUploadView.successBanner :=
                Some (if String.eqb (Api.message response) ""
                      then "Document uploaded successfully"
                      else Api.message response);
              DocumentUploadView.errorBanner := None |}.
Proof.
  intros P cb file st parent response Hsel during. subst during.
  unfold DocumentUpload.handleUpload_start. rewrite Hsel.
  unfold DocumentUploadView.render. simpl. rewrite Hsel.
  split; [reflexivity|]. split; reflexivity.
Qed.

Lemma upload_progress_view_witness :
  let pdf := {| name := "notes.pdf"; type := "application/pdf"; content := "%PDF" |} in
  let st := DocumentUpload.handleFileSelect pdf DocumentUpload.initial in
  DocumentUploadView.uploadButton
    (DocumentUploadView.render (fst (DocumentUpload.handleUpload_start st)))
  = Some (true, "Uploading...")
  /\ DocumentUploadView.uploadButton
       (DocumentUploadView.render
          (DocumentUpload.removeClicked (fst (DocumentUpload.handleUpload_start st))))
     = None.
Proof.
  intros pdf st.
  destruct (upload_progress_view unit None pdf st tt
              {| Api.message := ""; Api.filename := "notes.pdf" |} eq_refl)
    as (-> & -> & _).
  split; reflexivity.
Defined.

Lemma entries_Permutation (fields : list (string * json)) :
  Js.entries fields ≡ₚ fields.
Proof.
  unfold Js.entries. rewrite merge_sort_Permutation.
  induction fields as [|kv fields IH]; [reflexivity|].
  rewrite filter_cons. simpl.
  destruct (Js.arrayIndex (fst kv)) as [n|] eqn:E; simpl.
  - constructor. exact IH.
  - rewrite <- Permutation_middle. constructor. exact IH.
Qed.

Lemma entries_named (fields : list (string * json)) :
  (forall kv, kv ∈ fields -> Js.arrayIndex (fst kv) = None) ->
  Js.entries fields = fields.
Proof.
  intros Hnamed. unfold Js.entries.
  assert (Hsplit : omap (fun kv => (fun n => (n, kv)) <$> Js.arrayIndex (fst kv)) fields
                   = []
                   /\ filter (fun kv => Js.arrayIndex (fst kv) = None) fields = fields).
  { induction fields as [|kv fields IH]; [split; reflexivity|].
    destruct IH as [Hindexed Hrest].
    { intros kv' Hin. apply Hnamed. right. exact Hin. }
    pose proof (Hnamed kv ltac:(left)) as Hkv. split.
    - simpl. rewrite Hkv. simpl. exact Hindexed.
    - rewrite filter_cons, decide_True by exact Hkv. rewrite Hrest. reflexivity. }
  destruct Hsplit as [-> ->]. reflexivity.
Qed.

#[local] Instance indexOrder_trans : Transitive Js.indexOrder.
Proof. intros a b c. unfold Js.indexOrder. lia. Qed.

#[local] Instance indexOrder_total : Total Js.indexOrder.
Proof. intros a b. unfold Js.indexOrder. lia. Qed.

(** The members with an array index for a key, as [entries] lists them:
    each index below the ones after it. *)
Lemma entries_indexed_sorted (fields : list (string * json)) :
  StronglySorted
    (fun a b : string * json =>
       exists m n : N,
         Js.arrayIndex (fst a) = Some m /\ Js.arrayIndex (fst b) = Some n
         /\ (m <= n)%N)
    (snd <$> merge_sort Js.indexOrder
               (omap (fun kv => (fun n => (n, kv)) <$> Js.arrayIndex (fst kv)) fields)).
Proof.
  set (tagged := omap (fun kv => (fun n => (n, kv)) <$> Js.arrayIndex (fst kv)) fields).
  assert (Htagged : forall x, x ∈ merge_sort Js.indexOrder tagged ->
                              Js.arrayIndex (fst (snd x)) = Some (fst x)).
  { intros x. rewrite merge_sort_Permutation. subst tagged.
    rewrite list_elem_of_omap. intros (kv & _ & Hx).
    destruct (Js.arrayIndex (fst kv)) as [n|] eqn:E; [|discriminate].
    simpl in Hx. injection Hx as <-. exact E. }
  assert (Hsorted : StronglySorted Js.indexOrder (merge_sort Js.indexOrder tagged)).
  { apply StronglySorted_merge_sort; apply _. }
  induction Hsorted as [|x l Hl IH Hx]; [constructor|].
  rewrite fmap_cons. constructor.
  - apply IH. intros y Hy. apply Htagged. right. exact Hy.
  - apply list.Forall_forall. intros b (y & -> & Hy)%list_elem_of_fmap.
    exists (fst x), (fst y).
    split; [apply Htagged; left|].
    split; [apply Htagged; right; exact Hy|].
    rewrite list.Forall_forall in Hx. exact (Hx y Hy).
Qed.

Lemma metadataRows_Some (entries : list (string * json)) :
  (forall kv, kv ∈ entries -> Js.ToString (snd kv) <> None) ->
  exists rows,
    SourcesPanel.metadataRows entries = Some rows
    /\ Forall2 (fun (row : string * string) (kv : string * json) =>
                  fst row = fst kv /\ Js.ToString (snd kv) = Some (snd row))
               rows entries.
Proof.
  induction entries as [|[key value] entries IH]; intros Hok.
  - exists []. split; [reflexivity | constructor].
  - destruct IH as (rows & Hrows & Hall).
    { intros kv Hin. apply Hok. right. exact Hin. }
    destruct (Js.ToString value) as [shown|] eqn:Hshown.
    + exists ((key, shown) :: rows). split.
      * cbn [SourcesPanel.metadataRows]. rewrite Hshown, Hrows. reflexivity.
      * constructor; [split; [reflexivity | exact Hshown] | exact Hall].
    + exfalso. apply (Hok (key, value)); [left | exact Hshown].
Qed.

Lemma metadataRows_None (entries : list (string * json)) :
  SourcesPanel.metadataRows entries = None
  <-> exists kv, kv ∈ entries /\ Js.ToString (snd kv) = None.
Proof.
  induction entries as [|[key value] entries IH].
  - split; [discriminate | intros (kv & Hin & _); inversion Hin].
  - cbn [SourcesPanel.metadataRows].
    destruct (Js.ToString value) as [shown|] eqn:Hshown.
    + destruct (SourcesPanel.metadataRows entries) as [rows|].
      * split; [discriminate|]. intros (kv & Hin & Hnone).
        apply elem_of_cons in Hin as [-> | Hin]; [simpl in Hnone; congruence|].
        assert (Hrows : Some rows = None)
          by (apply IH; exists kv; split; [exact Hin | exact Hnone]).
        discriminate.
      * split; [|reflexivity]. intros _.
        destruct (proj1 IH eq_refl) as (kv & Hin & Hnone).
        exists kv. split; [right; exact Hin | exact Hnone].
    + split; [|reflexivity]. intros _.
      exists (key, value). split; [left | exact Hshown].
Qed.

(** X18: a collapsed [SourceItem] shows its caption only.  Expanded, it
    shows the source text and, when the metadata has at least one key, one
    row per member as [Object.entries] lists them: the members whose key is
    an array index first, by ascending index, then the others in the
    metadata's own order (so the metadata's order throughout when no key
    is an array index).  A row shows the key and [String(value)]; when
    that conversion throws for some member, the render throws.  Without
    metadata, or with an empty one, there is no metadata block. *)
Theorem source_item_metadata_rows :
  forall (source : Api.Source) (index : nat),
    let caption := "Source " +:+ pretty (index + 1) in
    SourcesPanel.SourceItem source index false = SourcesPanel.Item caption None
    /\ (Api.metadata source = None \/ Api.metadata source = Some [] ->
        SourcesPanel.SourceItem source index true
        = SourcesPanel.Item caption (Some (Api.text source, None)))
    /\ forall members : list (string * json),
         Api.metadata source = Some members ->
         members <> [] ->
         Js.entries members ≡ₚ members
         /\ (exists indexed,
                Js.entries members
                = indexed ++ filter (fun kv => Js.arrayIndex (fst kv) = None) members
                /\ StronglySorted
                     (fun a b : string * json =>
                        exists m n : N,
                          Js.arrayIndex (fst a) = Some m
                          /\ Js.arrayIndex (fst b) = Some n
                          /\ (m <= n)%N)
                     indexed)
         /\ ((forall kv, kv ∈ members -> Js.arrayIndex (fst kv) = None) ->
             Js.entries members = members)
         /\ (SourcesPanel.SourceItem source index true = SourcesPanel.RenderThrows
             <-> exists kv, kv ∈ members /\ Js.ToString (snd kv) = None)
         /\ ((forall kv, kv ∈ members -> Js.ToString (snd kv) <> None) ->
             exists rows,
               SourcesPanel.SourceItem source index true
               = SourcesPanel.Item caption (Some (Api.text source, Some rows))
               /\ Forall2 (fun (row : string * string) (kv : string * json) =>
                             fst row = fst kv
                             /\ Js.ToString (snd kv) = Some (snd row))
                          rows (Js.entries members)).
Proof.
  intros source index caption. subst caption.
  split; [reflexivity|].
  split.
  { intros [H | H]; unfold SourcesPanel.SourceItem; rewrite H; reflexivity. }
  intros members Hmeta Hne.
  assert (Hlen : (0 <? length members) = true).
  { destruct members; [congruence | reflexivity]. }
  split; [apply entries_Permutation|].
  split; [eexists; split; [reflexivity | apply entries_indexed_sorted]|].
  split; [apply entries_named|].
  unfold SourcesPanel.SourceItem. rewrite Hmeta, Hlen.
  split.
  - destruct (SourcesPanel.metadataRows (Js.entries members)) as [rows|] eqn:Hrows.
    + split; [discriminate|]. intros (kv & Hin & Hnone).
      assert (Hthrows : SourcesPanel.metadataRows (Js.entries members) = None).
      { apply metadataRows_None. exists kv. split; [|exact Hnone].
        rewrite entries_Permutation. exact Hin. }
      congruence.
    + split; [|reflexivity]. intros _.
      apply metadataRows_None in Hrows as (kv & Hin & Hnone).
      exists kv. split; [|exact Hnone].
      rewrite entries_Permutation in Hin. exact Hin.
  - intros Hok.
    destruct (metadataRows_Some (Js.entries members)) as (rows & -> & Hall).
    { intros kv Hin. apply Hok. rewrite entries_Permutation in Hin. exact Hin. }
    exists rows. split; [reflexivity | exact Hall].
Qed.

Lemma source_item_metadata_rows_witness :
  let source :=
    {| Api.text := "Endee stores vectors.";
       Api.metadata :=
         Some [("source", JStr "notes.pdf"); ("2", JNum (10 ^ 21));
               ("1", JArr [JNull; JBool true])] |} in
  let broken :=
    {| Api.text := "Endee stores vectors.";
       Api.metadata := Some [("page", JObj [("toString", JNum 1)])] |} in
  (exists rows,
      SourcesPanel.SourceItem source 0 true
      = SourcesPanel.Item "Source 1" (Some ("Endee stores vectors.", Some rows))
      /\ Forall2 (fun (row : string * string) (kv : string * json) =>
                    fst row = fst kv /\ Js.ToString (snd kv) = Some (snd row))
                 rows
                 [("1", JArr [JNull; JBool true]); ("2", JNum (10 ^ 21));
                  ("source", JStr "notes.pdf")])
  /\ SourcesPanel.SourceItem broken 0 true = SourcesPanel.RenderThrows.
Proof.
  intros source broken. split.
  - destruct (proj2 (proj2 (source_item_metadata_rows source 0))
                    [("source", JStr "notes.pdf"); ("2", JNum (10 ^ 21));
                     ("1", JArr [JNull; JBool true])] eq_refl)
      as (_ & _ & _ & _ & Hrows); [discriminate|].
    destruct Hrows as (rows & Hview & Hall).
    + intros kv Hin.
      repeat (apply elem_of_cons in Hin as [-> | Hin]; [vm_compute; discriminate|]).
      inversion Hin.
    + exists rows. split; [exact Hview | exact Hall].
  - destruct (proj2 (proj2 (source_item_metadata_rows broken 0))
                    [("page", JObj [("toString", JNum 1)])] eq_refl)
      as (_ & _ & _ & Hthrows & _); [discriminate|].
    apply Hthrows. exists ("page", JObj [("toString", JNum 1)]).
    split; [left | reflexivity].
Defined.
